(** * ExtendedAnnotationsReader: a shallow embedding and its properties

    The development follows [src/AnnotationsReader/ExtendedAnnotationsReader.ts].
    JavaScript strings are Rocq strings (each [ascii] stands for one UTF-16
    code unit below 256), JavaScript objects used as records are [gmap]s
    keyed by the property name, numbers are IEEE-754 binary64 values in the
    inductive presentation of [SpecFloat], and a call that may throw returns
    a [Completion]. *)

From Stdlib Require Import ZArith SpecFloat Ascii String.
From stdpp Require Import gmap strings list fin_maps.

Set Warnings "-register-all".
Local Open Scope string_scope.

(** ** JavaScript strings *)

Module JSString.

Definition LF : ascii := "010"%char.
Definition CR : ascii := "013"%char.
Definition SP : ascii := " "%char.

(** [WhiteSpace] and [LineTerminator] of ECMAScript, among the code units
    below 256: TAB, LF, VT, FF, CR, SP and NBSP. *)
Definition is_white_space (c : ascii) : bool :=
  let n := nat_of_ascii c in
  (Nat.leb 9 n && Nat.leb n 13) || Nat.eqb n 32 || Nat.eqb n 160.

(** [parts.join(sep)] *)
Fixpoint join (sep : string) (parts : list string) : string :=
  match parts with
  | [] => ""
  | [p] => p
  | p :: rest => p ++ sep ++ join sep rest
  end.

(** [s.replace(/\r/g, "")] *)
Fixpoint replace_cr (s : string) : string :=
  match s with
  | "" => ""
  | String c rest =>
      if Ascii.eqb c CR then replace_cr rest else String c (replace_cr rest)
  end.

Fixpoint trimStart (s : string) : string :=
  match s with
  | "" => ""
  | String c rest => if is_white_space c then trimStart rest else s
  end.

(** [trimEnd] walks the string once; a suffix made of white space only
    becomes empty. *)
Fixpoint trimEnd (s : string) : string :=
  match s with
  | "" => ""
  | String c rest =>
      match trimEnd rest with
      | "" => if is_white_space c then "" else String c ""
      | kept => String c kept
      end
  end.

(** [s.trim()] *)
Definition trim (s : string) : string := trimEnd (trimStart s).

(** The look-behind [(?<=[^\n])]: some code unit precedes, and it is not
    a line feed. *)
Definition lookbehind (prev : option ascii) : bool :=
  match prev with
  | Some p => negb (Ascii.eqb p LF)
  | None => false
  end.

(** The look-ahead [(?=[^\n*-])]: some code unit follows, and it is none
    of line feed, star and hyphen. *)
Definition lookahead (rest : string) : bool :=
  match rest with
  | String d _ =>
      negb (Ascii.eqb d LF || Ascii.eqb d "*"%char || Ascii.eqb d "-"%char)
  | "" => false
  end.

(** [s.replace(/(?<=[^\n])\n(?=[^\n*-])/g, " ")], scanning left to right;
    [prev] is the code unit of the input that precedes [s]. Both
    assertions are zero-width and read the input, never the output. *)
Fixpoint replace_soft_breaks_from (prev : option ascii) (s : string) : string :=
  match s with
  | "" => ""
  | String c rest =>
      String
        (if Ascii.eqb c LF && lookbehind prev && lookahead rest then SP else c)
        (replace_soft_breaks_from (Some c) rest)
  end.

Definition replace_soft_breaks (s : string) : string :=
  replace_soft_breaks_from None s.

Fixpoint starts_with (p s : string) : bool :=
  match p, s with
  | "", _ => true
  | String a p', String b s' => Ascii.eqb a b && starts_with p' s'
  | String _ _, "" => false
  end.

(** [s.split(sep)] for a non-empty separator: [skip] counts the code
    units of a separator just matched that are still to be passed over,
    [cur] is the segment being read. *)
Fixpoint split_from (sep : string) (skip : nat) (cur : string) (s : string)
  : list string :=
  match s with
  | "" => [cur]
  | String c rest =>
      match skip with
      | S k => split_from sep k cur rest
      | O =>
          if starts_with sep s
          then cur :: split_from sep (String.length sep - 1) "" rest
          else split_from sep 0 (cur ++ String c "") rest
      end
  end.

Definition split (sep : string) (s : string) : list string :=
  split_from sep 0 "" s.

End JSString.

(** ** JavaScript values *)

Definition number : Type := spec_float.

(** The binary64 value of an integer. *)
Definition number_of_Z (z : Z) : number := binary_normalize 53 1024 z 0 false.

Definition NaN : number := S754_nan.

Inductive JSValue : Type :=
  | JNull
  | JBool (b : bool)
  | JNumber (x : number)
  | JString (s : string)
  | JArray (items : list JSValue)
  | JObject (fields : gmap string JSValue).

(** [Annotations] of [Type/AnnotatedType]: a record of schema fields. *)
Abbreviation Annotations := (gmap string JSValue).

(** [arr.at(0)] and [arr.at(-1)] *)
Definition at_first {A} (arr : list A) : option A := head arr.
Definition at_last {A} (arr : list A) : option A := last arr.

(** Object spread [{...target, ...source}]: every own property of the
    source is set on the target, one after the other; spreading
    [undefined] sets nothing. *)
Definition spread (target : Annotations) (source : option Annotations)
  : Annotations :=
  match source with
  | None => target
  | Some src => map_fold (λ key value acc, <[key := value]> acc) target src
  end.

(** ** Completions: a call returns normally or throws a value *)

Inductive Completion (A : Type) : Type :=
  | Normal (a : A)
  | Throw (e : JSValue).
Arguments Normal {A} a.
Arguments Throw {A} e.

#[global] Instance Completion_ret : MRet Completion := λ A a, Normal a.
#[global] Instance Completion_bind : MBind Completion := λ A B f m,
  match m with
  | Normal a => f a
  | Throw e => Throw e
  end.

(** [try { body } catch (e) { handler }] *)
Definition try_catch {A} (body : Completion A) (handler : JSValue → Completion A)
  : Completion A :=
  match body with
  | Normal a => Normal a
  | Throw e => handler e
  end.

(** [for (const x of xs) { body }], threading the variables the body
    updates. *)
Fixpoint for_of {A S} (xs : list A) (body : S → A → Completion S) (s : S)
  : Completion S :=
  match xs with
  | [] => mret s
  | x :: rest => s' ← body s x; for_of rest body s'
  end.

(** ** The compiler's objects *)

Record SymbolDisplayPart : Type := { text : string; kind : string }.

Record JSDocTagInfo : Type :=
  { name : string; tag_text : option (list SymbolDisplayPart) }.

(** [ts.SymbolFlags]: [ConstEnum = 1 << 7], [NamespaceModule = 1 << 10],
    and the flags of the two kinds of declaration the samples use. *)
Definition Property : Z := 4.
Definition EnumMember : Z := 8.
Definition ConstEnum : Z := 128.
Definition NamespaceModule : Z := 1024.

(** Modelled from the spec: [symbolAtNode] of [Utils/symbolAtNode], which
    the sources at hand do not include, is the capability
    [resolveSymbol(node) → Symbol | absent]; here it is a field of the
    node. The children are those [forEachChild] visits, in order.

    Nodes and symbols point at each other in the compiler; the reader
    follows node, symbol, first declaration, child, child symbol and no
    further, so a finite unfolding carries all it can see. *)
Inductive Node : Type :=
  mkNode {
    symbolAtNode : option Symbol;
    getText : string;
    forEachChild : list Node }
with Symbol : Type :=
  mkSymbol {
    getFlags : Z;
    getDocumentationComment : list SymbolDisplayPart;
    getJsDocTags : list JSDocTagInfo;
    getDeclarations : option (list Node) }.

(** ** The reader *)

Section ExtendedAnnotationsReader.

(** [json5.parse]: the parsed value, or the thrown error. *)
Variable json5_parse : string → Completion JSValue.

(** The built-in [Number] applied to a string. *)
Variable Number_ : string → number.

(** [super.getAnnotations] of [BasicAnnotationsReader]. *)
Variable super_getAnnotations : Node → Completion (option Annotations).

(** The constructor's [markdownDescription?: boolean]. *)
Variable markdownDescription : option bool.

Definition truthy (flag : option bool) : bool := default false flag.

Definition comment_text (comments : list SymbolDisplayPart) : string :=
  JSString.trim (JSString.replace_cr (JSString.join " " (text <$> comments))).

(** The callback of [forEachChild] in [getDescriptionAnnotation]. *)
Definition push_member (anyOf : list JSValue) (child : Node) : list JSValue :=
  match symbolAtNode child with
  | None => anyOf
  | Some symbol =>
      let description := comment_text (getDocumentationComment symbol) in
      let val := at_last (JSString.split "= " (getText child)) in
      let const :=
        match val with Some v => Number_ v | None => NaN end in
      (anyOf ++ [JObject (<["description" := JString description]>
                           (<["const" := JNumber const]> ∅))])%list
  end.

(** The [anyOf] array once the enum branch of [getDescriptionAnnotation]
    has run. *)
Definition collect_members (symbol : Symbol) : list JSValue :=
  if (getFlags symbol =? ConstEnum)%Z then
    match getDeclarations symbol ≫= at_first with
    | Some declaration => fold_left push_member (forEachChild declaration) []
    | None => []
    end
  else [].

Definition getDescriptionAnnotation (node : Node) : option Annotations :=
  match symbolAtNode node with
  | None => None
  | Some symbol =>
      let comments := getDocumentationComment symbol in
      if (length comments =? 0)%nat then None else
      let anyOf := collect_members symbol in
      let markdown := comment_text comments in
      let description :=
        JSString.trim (JSString.replace_soft_breaks markdown) in
      let data : Annotations :=
        if truthy markdownDescription
        then <["markdownDescription" := JString markdown]>
               (<["description" := JString description]> ∅)
        else <["description" := JString description]> ∅ in
      if (0 <? length anyOf)%nat
      then Some (<["title" := JString description]>
                   (<["anyOf" := JArray anyOf]> (spread ∅ (Some data))))
      else Some data
  end.

Definition find_tag (tag : string) (jsDocTags : list JSDocTagInfo)
  : option JSDocTagInfo :=
  List.find (λ t, String.eqb (name t) tag) jsDocTags.

Definition tag_body (tag : JSDocTagInfo) : string :=
  JSString.join "" (text <$> default [] (tag_text tag)).

Definition getTypeAnnotation (node : Node) : option Annotations :=
  match symbolAtNode node with
  | None => None
  | Some symbol =>
      if (getFlags symbol =? ConstEnum)%Z
      then Some (<["type" := JString "number"]> ∅)
      else
        let jsDocTags := getJsDocTags symbol in
        if (length jsDocTags =? 0)%nat then None else
        match find_tag "asType" jsDocTags with
        | None => None
        | Some jsDocTag => Some (<["type" := JString (tag_body jsDocTag)]> ∅)
        end
  end.

(** The body of the loop over the example tags. *)
Definition push_example (examples : list JSValue) (example : JSDocTagInfo)
  : Completion (list JSValue) :=
  let text := tag_body example in
  try_catch
    (value ← json5_parse text; mret (examples ++ [value])%list)
    (λ _, mret examples).

Definition getExampleAnnotation (node : Node) : Completion (option Annotations) :=
  match symbolAtNode node with
  | None => mret None
  | Some symbol =>
      let jsDocTags := getJsDocTags symbol in
      if (length jsDocTags =? 0)%nat then mret None else
      examples ←
        for_of (filter (λ t, name t = "example") jsDocTags) push_example [];
      if (length examples =? 0)%nat then mret None
      else mret (Some (<["examples" := JArray examples]> ∅))
  end.

Definition getAnnotations (node : Node) : Completion (option Annotations) :=
  let description := getDescriptionAnnotation node in
  let type := getTypeAnnotation node in
  example ← getExampleAnnotation node;
  base ← super_getAnnotations node;
  let annotations :=
    spread (spread (spread (spread ∅ description) type) example) base in
  if (size annotations =? 0)%nat then mret None else mret (Some annotations).

Definition isNullable (node : Node) : bool :=
  match symbolAtNode node with
  | None => false
  | Some symbol =>
      let jsDocTags := getJsDocTags symbol in
      if (length jsDocTags =? 0)%nat then false else
      match find_tag "nullable" jsDocTags with
      | Some _ => true
      | None => false
      end
  end.

End ExtendedAnnotationsReader.

(** ** The specification's words, for comparison with the code *)

(** A field of a group that may be absent. *)
Definition field (group : option Annotations) (key : string) : option JSValue :=
  group ≫= (.!! key).

(** The first of two optional values that is present. *)
Definition or_else {A} (first second : option A) : option A :=
  match first with
  | Some _ => first
  | None => second
  end.

(** A group yields no field: it is absent, or a record without fields. *)
Definition yields_no_field (group : option Annotations) : Prop :=
  group = None ∨ group = Some ∅.

(** A flag of the symbol's flag set is set. *)
Definition has_flag (flag : Z) (symbol : Symbol) : bool :=
  negb (Z.land (getFlags symbol) flag =? 0)%Z.

Module Collapse.

Definition line_feed_at (s : string) (i : nat) : bool :=
  match String.get i s with
  | Some c => Ascii.eqb c JSString.LF
  | None => false
  end.

(** A star or a hyphen: the two code units after a line feed that keep the
    line feed in place. *)
Definition marker_at (s : string) (i : nat) : bool :=
  match String.get i s with
  | Some c => Ascii.eqb c "*"%char || Ascii.eqb c "-"%char
  | None => false
  end.

Definition line_feed_before (s : string) (i : nat) : bool :=
  match i with
  | O => false
  | S j => line_feed_at s j
  end.

(** The line feed at index [i] is a single newline: no other newline is
    next to it on either side, and no marker opens the line after it. *)
Definition soft_break (s : string) (i : nat) : bool :=
  line_feed_at s i
  && negb (line_feed_before s i)
  && negb (line_feed_at s (S i))
  && negb (marker_at s (S i)).

Fixpoint map_index (f : nat → ascii → ascii) (i : nat) (s : string) : string :=
  match s with
  | "" => ""
  | String c rest => String (f i c) (map_index f (S i) rest)
  end.

(** Every soft break becomes a space, every other code unit stays. *)
Definition collapse (s : string) : string :=
  map_index (λ i c, if soft_break s i then JSString.SP else c) 0 s.

(** No white space at either end. *)
Definition trimmed (s : string) : Prop :=
  (∀ c, String.get 0 s = Some c → JSString.is_white_space c = false)
  ∧ (∀ i c, String.get i s = Some c → String.get (S i) s = None →
            JSString.is_white_space c = false).

End Collapse.

(** The description with the collapse told index by index: join the
    fragments with single spaces, strip the carriage returns, trim,
    collapse the soft breaks. *)
Definition spec_description (comments : list SymbolDisplayPart) : string :=
  Collapse.collapse
    (JSString.trim (JSString.replace_cr (JSString.join " " (text <$> comments)))).

(** ** The words of the specification, on their own definitions

    Nothing here uses an operation of [JSString]: the joining is the
    library's [String.concat], carriage returns are filtered out of the
    list of code units, and trimming drops white space from the list and
    from its reverse. *)

Module Wording.

Definition carriage_return : ascii := ascii_of_nat 13.

(** Joined with single spaces. *)
Definition joined (fragments : list string) : string :=
  String.concat " " fragments.

(** Carriage returns stripped. *)
Definition without_carriage_returns (s : string) : string :=
  string_of_list_ascii
    (List.filter (λ c, negb (Ascii.eqb c carriage_return))
       (list_ascii_of_string s)).

(** White space, among the code units below 256. *)
Definition white (c : ascii) : bool :=
  existsb (Nat.eqb (nat_of_ascii c)) [9; 10; 11; 12; 13; 32; 160].

Fixpoint drop_white (units : list ascii) : list ascii :=
  match units with
  | [] => []
  | c :: rest => if white c then drop_white rest else units
  end.

(** Trimmed: white space dropped at the start, and at the start of the
    reverse. *)
Definition trimmed_text (s : string) : string :=
  string_of_list_ascii
    (rev (drop_white (rev (drop_white (list_ascii_of_string s))))).

(** The text before the collapse: joined, stripped and trimmed. *)
Definition prepared (fragments : list string) : string :=
  trimmed_text (without_carriage_returns (joined fragments)).

(** The description as the code makes it: a line feed becomes a space
    when no line feed stands next to it and neither a star nor a hyphen
    follows it. *)
Definition description (fragments : list string) : string :=
  Collapse.collapse (prepared fragments).

(** A markdown list or heading marker: hyphen, star and plus open a list
    item, the hash opens a heading. *)
Definition marker (c : ascii) : bool :=
  existsb (Ascii.eqb c) ["-"; "*"; "+"; "#"]%char.

Definition marker_at (s : string) (i : nat) : bool :=
  match String.get i s with
  | Some c => marker c
  | None => false
  end.

(** A newline or a marker stands right before or right after index [i]. *)
Definition beside (at_index : string → nat → bool) (s : string) (i : nat) : bool :=
  match i with
  | O => false
  | S j => at_index s j
  end
  || at_index s (S i).

(** A single newline as the specification words it: a line feed that is
    adjacent neither to another line feed nor to a marker. *)
Definition single_newline (s : string) (i : nat) : bool :=
  Collapse.line_feed_at s i
  && negb (beside Collapse.line_feed_at s i)
  && negb (beside marker_at s i).

(** The description as the specification words it. *)
Definition stated_description (fragments : list string) : string :=
  Collapse.map_index
    (λ i c, if single_newline (prepared fragments) i then " "%char else c)
    0 (prepared fragments).

(** The body of a tag: its fragments joined with nothing between them, an
    absent body being the empty text. *)
Definition body_text (tag : JSDocTagInfo) : string :=
  String.concat ""
    match tag_text tag with
    | Some fragments => List.map text fragments
    | None => []
    end.

End Wording.

Section ExampleSpec.

Variable json5_parse : string → Completion JSValue.

(** The examples of the specification: the values of the example tags
    that parse, in tag order; the others are dropped. *)
Fixpoint parsed_examples (jsDocTags : list JSDocTagInfo) : list JSValue :=
  match jsDocTags with
  | [] => []
  | tag :: rest =>
      if String.eqb (name tag) "example" then
        match json5_parse (Wording.body_text tag) with
        | Normal value => value :: parsed_examples rest
        | Throw _ => parsed_examples rest
        end
      else parsed_examples rest
  end.

Definition spec_examples (node : Node) : option Annotations :=
  match symbolAtNode node with
  | None => None
  | Some symbol =>
      match parsed_examples (getJsDocTags symbol) with
      | [] => None
      | values => Some {[ "examples" := JArray values ]}
      end
  end.

End ExampleSpec.

Section Merge.

Variable json5_parse : string → Completion JSValue.
Variable Number_ : string → number.
Variable markdownDescription : option bool.

(** The four groups of a node, merged in the order of [getAnnotations],
    with the examples of the specification. *)
Definition merged_groups (node : Node) (base : option Annotations) : Annotations :=
  spread
    (spread
       (spread
          (spread ∅ (getDescriptionAnnotation Number_ markdownDescription node))
          (getTypeAnnotation node))
       (spec_examples json5_parse node))
    base.

End Merge.

(** ** Sample inputs *)

Module Sample.

Definition nl : string := String JSString.LF "".

Definition part (s : string) : SymbolDisplayPart := {| text := s; kind := "text" |}.

Definition tag (tag_name body : string) : JSDocTagInfo :=
  {| name := tag_name; tag_text := Some [part body] |}.

Definition bare_tag (tag_name : string) : JSDocTagInfo :=
  {| name := tag_name; tag_text := None |}.

(** A parser that knows two literals and throws on every other text. *)
Definition parse (s : string) : Completion JSValue :=
  if String.eqb s "1" then Normal (JNumber (number_of_Z 1))
  else if String.eqb s "null" then Normal JNull
  else Throw (JString "SyntaxError").

(** [Number] on the two literals of the enum below. *)
Definition to_number (s : string) : number :=
  if String.eqb s "1" then number_of_Z 1
  else if String.eqb s "2" then number_of_Z 2
  else NaN.

Definition silent_base (node : Node) : Completion (option Annotations) :=
  Normal None.

(** A base reader that sets the type field itself. *)
Definition typing_base (node : Node) : Completion (option Annotations) :=
  Normal (Some {[ "type" := JString "string" ]}).

Definition leaf (symbol : option Symbol) (source : string) : Node :=
  mkNode symbol source [].

(** [/** An enum */ const enum E { /** first */ A = 1, /** second */ B = 2 }] *)
Definition member_A : Node :=
  leaf (Some (mkSymbol EnumMember [part "first"] [] None)) "A = 1".
Definition member_B : Node :=
  leaf (Some (mkSymbol EnumMember [part "second"] [] None)) "B = 2".
Definition enum_children : list Node :=
  [leaf None "const"; leaf None "E"; member_A; member_B].
Definition enum_symbol : Symbol :=
  mkSymbol ConstEnum [part "An enum"] []
    (Some [mkNode None "const enum E { A = 1, B = 2 }" enum_children]).
Definition enum_node : Node :=
  mkNode (Some enum_symbol) "const enum E { A = 1, B = 2 }" enum_children.

(** [const enum M { A = 1 }] merged with [namespace M { export interface
    Options {} }]: one symbol for both declarations, with the flags
    [ConstEnum | NamespaceModule], and an [asType] tag. *)
Definition merged_symbol : Symbol :=
  mkSymbol (Z.lor ConstEnum NamespaceModule) [part "Merged"]
    [tag "asType" "CustomType"] None.
Definition merged_node : Node := leaf (Some merged_symbol) "const enum M { A = 1 }".

(** A property with a documentation comment of two lines and no tag. *)
Definition documented_node : Node :=
  leaf (Some (mkSymbol Property [part ("line one" ++ nl ++ "line two")] [] None))
    "width: number".

Definition list_node : Node :=
  leaf (Some (mkSymbol Property [part ("item one" ++ nl ++ "- item two")] [] None))
    "items: string".

(** A property with tags: two examples, one of them malformed. *)
Definition tagged_node : Node :=
  leaf (Some (mkSymbol Property [part "A width"]
                [tag "example" "not json"; bare_tag "nullable";
                 tag "example" "1"; tag "asType" "CustomType"] None))
    "width: number".


Definition unresolved_node : Node := leaf None "x".

End Sample.

(** ** Words for the further properties of the reader *)

Module Text.

(** The code unit [c] occurs in [s]. *)
Fixpoint contains (c : ascii) (s : string) : bool :=
  match s with
  | "" => false
  | String d rest => Ascii.eqb d c || contains c rest
  end.

(** The string [sub] occurs in [s]. *)
Fixpoint occurs (sub : string) (s : string) : bool :=
  JSString.starts_with sub s
  || match s with
     | "" => false
     | String _ rest => occurs sub rest
     end.

End Text.

Section Members.

Variable Number_ : string → number.

(** The descriptor of one child of an enum declaration, when the child
    resolves to a symbol. *)
Definition member_descriptor (child : Node) : option JSValue :=
  match symbolAtNode child with
  | None => None
  | Some symbol =>
      Some (JObject
              {[ "const" := JNumber
                   match at_last (JSString.split "= " (getText child)) with
                   | Some v => Number_ v
                   | None => NaN
                   end;
                 "description" :=
                   JString (comment_text (getDocumentationComment symbol)) ]})
  end.

End Members.

(** The number of tags with a given name. *)
Definition count_tags (tag_name : string) (jsDocTags : list JSDocTagInfo) : nat :=
  length (filter (λ t, name t = tag_name) jsDocTags).

(** ** factory/program.ts *)

Module ProgramFactory.

(** [ts.ParsedCommandLine], and the object literal [getTsConfig] returns
    without a tsconfig: the two fields [createProgram] reads. *)
Record ParsedCommandLine : Type :=
  { options : gmap string JSValue; fileNames : list string }.

(** The result of [ts.parseConfigFileTextToJson]. *)
Record ConfigFileJson : Type :=
  { config : option JSValue; error : option JSValue }.

(** The fields of [Config] that [program.ts] reads. *)
Record Config : Type :=
  { path : option string; tsconfig : option string; skipTypeCheck : option bool }.

(** JavaScript truthiness of an optional string and of an optional value:
    [undefined], [null], [false], zero, [NaN] and the empty string are
    falsy. *)
Definition truthy_string (s : option string) : bool :=
  match s with
  | Some (String _ _) => true
  | _ => false
  end.

Definition truthy_value (v : option JSValue) : bool :=
  match v with
  | None | Some JNull => false
  | Some (JBool b) => b
  | Some (JNumber (S754_zero _)) | Some (JNumber S754_nan) => false
  | Some (JNumber _) => true
  | Some (JString s) => truthy_string (Some s)
  | Some (JArray _) | Some (JObject _) => true
  end.
Arguments truthy_value : simpl never.

Definition quote : string := String "034"%char "".

(** [ts.ScriptTarget.ES5] and [ts.ModuleKind.CommonJS] *)
Definition ES5 : Z := 1.
Definition CommonJS : Z := 1.

(** The options that make the compiler write files. *)
Definition emit_options : list string :=
  ["out"; "outDir"; "outFile"; "declaration"; "declarationDir"; "declarationMap"].

Section Factory.

(** [ts.sys.readFile] *)
Variable readFile : string → option string.

(** [ts.parseConfigFileTextToJson(fileName, jsonText)] *)
Variable parseConfigFileTextToJson : string → string → ConfigFileJson.

(** [ts.parseJsonConfigFileContent(json, ts.sys, basePath, {}, configFileName)] *)
Variable parseJsonConfigFileContent : JSValue → string → string → ParsedCommandLine.

(** [path.resolve], [path.dirname], [normalize] and [globSync] *)
Variable resolve : string → string.
Variable dirname : string → string.
Variable normalize : string → string.
Variable globSync : string → list string.

(** [new BuildError(diagnostic)] of [Error/Errors] *)
Variable BuildError : JSValue → JSValue.

(** [ts.Program], [ts.createProgram] and [ts.getPreEmitDiagnostics] *)
Variable Program : Type.
Variable ts_createProgram : list string → gmap string JSValue → Program.
Variable getPreEmitDiagnostics : Program → list JSValue.

Definition message (messageText : string) : JSValue :=
  JObject (<["messageText" := JString messageText]> ∅).

Definition loadTsConfigFile (configFile : string) : Completion ParsedCommandLine :=
  let raw := readFile configFile in
  if negb (truthy_string raw) then
    Throw (BuildError
             (message ("Cannot read config file " ++ quote ++ configFile ++ quote)))
  else
    let parsed := parseConfigFileTextToJson configFile (default "" raw) in
    if truthy_value (error parsed) then
      Throw (BuildError (default JNull (error parsed)))
    else if negb (truthy_value (config parsed)) then
      Throw (BuildError
               (message
                  ("Invalid parsed config file " ++ quote ++ configFile ++ quote)))
    else
      let parseResult :=
        parseJsonConfigFileContent (default JNull (config parsed))
          (resolve (dirname configFile)) configFile in
      let options1 := <["noEmit" := JBool true]> (options parseResult) in
      let options2 := delete "out" options1 in
      let options3 := delete "outDir" options2 in
      let options4 := delete "outFile" options3 in
      let options5 := delete "declaration" options4 in
      let options6 := delete "declarationDir" options5 in
      let options7 := delete "declarationMap" options6 in
      Normal {| options := options7; fileNames := fileNames parseResult |}.

Definition default_options : gmap string JSValue :=
  <["strictNullChecks" := JBool false]>
    (<["module" := JNumber (number_of_Z CommonJS)]>
       (<["target" := JNumber (number_of_Z ES5)]>
          (<["experimentalDecorators" := JBool true]>
             (<["emitDecoratorMetadata" := JBool true]>
                (<["noEmit" := JBool true]> ∅))))).

Definition getTsConfig (config : Config) : Completion ParsedCommandLine :=
  if truthy_string (tsconfig config)
  then loadTsConfigFile (default "" (tsconfig config))
  else Normal {| options := default_options; fileNames := [] |}.

(** The constant [rootNamesFromPath] of [createProgram]. *)
Definition rootNamesFromPath (config : Config) : list string :=
  if truthy_string (path config)
  then normalize <$> globSync (normalize (resolve (default "" (path config))))
  else [].

Definition createProgram (config : Config) : Completion Program :=
  let rootNamesFromPath := rootNamesFromPath config in
  tsconfig ← getTsConfig config;
  let rootNames :=
    if (length rootNamesFromPath =? 0)%nat then fileNames tsconfig
    else rootNamesFromPath in
  if (length rootNames =? 0)%nat then
    Throw (BuildError (message "No input files"))
  else
    let program := ts_createProgram rootNames (options tsconfig) in
    if negb (truthy (skipTypeCheck config)) then
      let diagnostics := getPreEmitDiagnostics program in
      if (length diagnostics =? 0)%nat then Normal program
      else
        Throw (BuildError
                 (JObject (<["relatedInformation" := JArray diagnostics]>
                             (<["messageText" := JString "Type check error"]> ∅))))
    else Normal program.

(** The three errors of [createProgram] and [loadTsConfigFile] that carry
    a message of their own. *)
Definition type_check_error (diagnostics : list JSValue) : JSValue :=
  BuildError
    (JObject {[ "messageText" := JString "Type check error";
                "relatedInformation" := JArray diagnostics ]}).

Definition no_input_files : JSValue := BuildError (message "No input files").

Definition cannot_read (configFile : string) : JSValue :=
  BuildError
    (message ("Cannot read config file " ++ quote ++ configFile ++ quote)).

End Factory.

(** Sample surroundings: one config file on disk, one source file. *)
Module Fixture.

Definition readFile (file : string) : option string :=
  if String.eqb file "tsconfig.json" then Some "{}"
  else if String.eqb file "empty.json" then Some ""
  else None.

Definition parseConfigFileTextToJson (file raw : string) : ConfigFileJson :=
  {| config := Some (JObject ∅); error := None |}.

Definition parseJsonConfigFileContent (json : JSValue) (basePath file : string)
  : ParsedCommandLine :=
  {| options :=
       <["outDir" := JString "dist"]>
         (<["declaration" := JBool true]> (<["strict" := JBool true]> ∅));
     fileNames := ["src/index.ts"] |}.

Definition same (p : string) : string := p.

Definition globSync (pattern : string) : list string :=
  if String.eqb pattern "src/*.ts" then ["src/a.ts"; "src/b.ts"] else [].

Definition BuildError (diagnostic : JSValue) : JSValue :=
  JObject (<["diagnostic" := diagnostic]> ∅).

(** A program is the root names and the options it was created with. *)
Definition Program : Type := list string * gmap string JSValue.

Definition ts_createProgram (rootNames : list string) (opts : gmap string JSValue)
  : Program := (rootNames, opts).

(** The type check finds one error in [src/b.ts]. *)
Definition getPreEmitDiagnostics (program : Program) : list JSValue :=
  if bool_decide ("src/b.ts" ∈ program.1) then [JString "TS2322"] else [].

Definition create (config : Config) : Completion Program :=
  createProgram readFile parseConfigFileTextToJson parseJsonConfigFileContent
    same same same globSync BuildError Program ts_createProgram
    getPreEmitDiagnostics config.

Definition load (configFile : string) : Completion ParsedCommandLine :=
  loadTsConfigFile readFile parseConfigFileTextToJson parseJsonConfigFileContent
    same same BuildError configFile.

(** What [load] makes of [tsconfig.json]. *)
Definition loaded : ParsedCommandLine :=
  {| options := <["noEmit" := JBool true]> {[ "strict" := JBool true ]};
     fileNames := ["src/index.ts"] |}.

Definition path_config : Config :=
  {| path := Some "src/*.ts"; tsconfig := Some "tsconfig.json";
     skipTypeCheck := Some true |}.

Definition checked_config : Config :=
  {| path := None; tsconfig := Some "tsconfig.json"; skipTypeCheck := None |}.

Definition failing_config : Config :=
  {| path := Some "src/*.ts"; tsconfig := Some "tsconfig.json";
     skipTypeCheck := None |}.

Definition bare_config : Config :=
  {| path := None; tsconfig := Some ""; skipTypeCheck := Some true |}.

Definition missing_config : Config :=
  {| path := Some "src/*.ts"; tsconfig := Some "missing.json";
     skipTypeCheck := Some true |}.

End Fixture.

End ProgramFactory.

(** ** More sample inputs *)

Module SampleMore.

(** A base reader that throws. *)
Definition throwing_base (node : Node) : Completion (option Annotations) :=
  Throw (JString "base reader failed").

(** [const enum E { /** first */ A = 1, /** second */ B = 2 }], the enum
    itself without a documentation comment. *)
Definition undocumented_enum_symbol : Symbol :=
  mkSymbol ConstEnum [] []
    (Some [mkNode None "const enum E { A = 1, B = 2 }" Sample.enum_children]).
Definition undocumented_enum_node : Node :=
  mkNode (Some undocumented_enum_symbol) "const enum E { A = 1, B = 2 }"
    Sample.enum_children.

(** A property whose comment is the description of
    [Sample.documented_node]. *)
Definition collapsed_node : Node :=
  Sample.leaf (Some (mkSymbol Property [Sample.part "line one line two"] [] None))
    "width: number".

(** A property with two [asType] tags. *)
Definition twice_typed_symbol : Symbol :=
  mkSymbol Property []
    [Sample.bare_tag "nullable"; Sample.tag "asType" "First";
     Sample.tag "asType" "Second"] None.
Definition twice_typed_node : Node :=
  Sample.leaf (Some twice_typed_symbol) "width: number".

(** [Sample.tagged_node] with a [deprecated] tag after its first tag. *)
Definition deprecated_symbol : Symbol :=
  mkSymbol Property [Sample.part "A width"]
    [Sample.tag "example" "not json"; Sample.bare_tag "deprecated";
     Sample.bare_tag "nullable"; Sample.tag "example" "1";
     Sample.tag "asType" "CustomType"] None.
Definition deprecated_node : Node :=
  Sample.leaf (Some deprecated_symbol) "width: number".

(** [const enum E { A = 1, B = 2 }] with its documentation comment, merged
    with [namespace E { export interface Options {} }]: the flags of the
    one symbol are [ConstEnum | NamespaceModule]. *)
Definition merged_enum_symbol : Symbol :=
  mkSymbol (Z.lor ConstEnum NamespaceModule) [Sample.part "An enum"] []
    (Some [mkNode None "const enum E { A = 1, B = 2 }" Sample.enum_children;
           Sample.leaf None "namespace E { export interface Options {} }"]).
Definition merged_enum_node : Node :=
  mkNode (Some merged_enum_symbol) "const enum E { A = 1, B = 2 }"
    Sample.enum_children.

(** A comment with a heading on its second line, and one whose first line
    ends with a hyphen. *)
Definition heading_text : string := "Intro" ++ Sample.nl ++ "# Heading".
Definition heading_node : Node :=
  Sample.leaf (Some (mkSymbol Property [Sample.part heading_text] [] None))
    "width: number".
Definition dash_text : string := "from -" ++ Sample.nl ++ "to".
Definition dash_node : Node :=
  Sample.leaf (Some (mkSymbol Property [Sample.part dash_text] [] None))
    "range: string".

(** An example tag whose body comes in two fragments, then one in one. *)
Definition fragmented_node : Node :=
  Sample.leaf
    (Some (mkSymbol Property []
             [{| name := "example";
                 tag_text := Some [Sample.part "nu"; Sample.part "ll"] |};
              Sample.tag "example" "1"] None))
    "width: number".

End SampleMore.

(** ** Facts about the string operations *)

Module JSStringFacts.
Import JSString Collapse.

Lemma get_pred_is_Some (s : string) (i : nat) (c : ascii) :
  String.get (S i) s = Some c → ∃ p, String.get i s = Some p.
Proof.
  revert i; induction s as [|a s IH]; intros i H; simpl in H; [discriminate|].
  destruct i as [|i]; simpl; eauto.
Qed.

Lemma get_map_index (f : nat → ascii → ascii) (k : nat) (s : string) (i : nat) :
  String.get i (map_index f k s) = f (k + i) <$> String.get i s.
Proof.
  revert k i; induction s as [|a s IH]; intros k i; simpl; [done|].
  destruct i as [|i]; simpl.
  - by rewrite Nat.add_0_r.
  - rewrite IH. by replace (S k + i) with (k + S i) by lia.
Qed.

Lemma line_feed_is_white_space (c : ascii) :
  Ascii.eqb c LF = true → is_white_space c = true.
Proof. intros H%Ascii.eqb_eq. by subst. Qed.

Lemma trimStart_head (s : string) (c : ascii) :
  String.get 0 (trimStart s) = Some c → is_white_space c = false.
Proof.
  induction s as [|a s IH]; simpl; [done|].
  destruct (is_white_space a) eqn:Ha; [done|].
  simpl. by intros [= <-].
Qed.

Lemma trimEnd_head (s : string) (c : ascii) :
  String.get 0 (trimEnd s) = Some c → String.get 0 s = Some c.
Proof.
  destruct s as [|a s]; simpl; [done|].
  destruct (trimEnd s); [destruct (is_white_space a)|]; simpl; done.
Qed.

Lemma trimEnd_last (s : string) (i : nat) (c : ascii) :
  String.get i (trimEnd s) = Some c → String.get (S i) (trimEnd s) = None →
  is_white_space c = false.
Proof.
  revert i; induction s as [|a s IH]; intros i; simpl; [done|].
  destruct (trimEnd s) as [|b kept] eqn:E.
  - destruct (is_white_space a) eqn:Ha; simpl; [done|].
    destruct i as [|i]; simpl; [|done]. by intros [= <-].
  - destruct i as [|i]; [simpl; done|].
    intros H1 H2. by apply (IH i).
Qed.

Lemma trimmed_trim (s : string) : trimmed (trim s).
Proof.
  split.
  - intros c H. apply trimEnd_head in H. by apply trimStart_head in H.
  - intros i c. apply trimEnd_last.
Qed.

Lemma trimStart_trimmed (s : string) :
  (∀ c, String.get 0 s = Some c → is_white_space c = false) → trimStart s = s.
Proof.
  destruct s as [|a s]; simpl; [done|].
  intros H. by rewrite (H a eq_refl).
Qed.

Lemma trimEnd_trimmed (s : string) :
  (∀ i c, String.get i s = Some c → String.get (S i) s = None →
          is_white_space c = false) →
  trimEnd s = s.
Proof.
  induction s as [|a s IH]; simpl; [done|].
  intros H. destruct s as [|b s].
  - simpl. by rewrite (H 0 a eq_refl eq_refl).
  - rewrite IH; [done|]. intros i c H1 H2. by apply (H (S i) c).
Qed.

Lemma trim_trimmed (s : string) : trimmed s → trim s = s.
Proof.
  intros [H0 Hlast]. unfold trim.
  rewrite (trimStart_trimmed s H0). by apply trimEnd_trimmed.
Qed.

(** The regular expression replaces what the specification calls a soft
    break, as soon as no line feed stands at either end of the input. *)
Lemma replace_soft_breaks_from_spec (whole s : string) (k : nat) (prev : option ascii) :
  (∀ i, String.get (k + i) whole = String.get i s) →
  prev = match k with O => None | S j => String.get j whole end →
  (k = 0 → line_feed_at s 0 = false) →
  (∀ i, line_feed_at s i = true → String.get (S i) s ≠ None) →
  replace_soft_breaks_from prev s =
  map_index (λ i c, if soft_break whole i then SP else c) k s.
Proof.
  revert k prev; induction s as [|c rest IH]; intros k prev Hget Hprev Hfirst Hlast;
    simpl; [done|].
  f_equal.
  - pose proof (Hget 0) as Hc. rewrite Nat.add_0_r in Hc. simpl in Hc.
    unfold soft_break, line_feed_at at 1. rewrite Hc.
    destruct (Ascii.eqb c LF) eqn:Ec; simpl; [|done].
    destruct k as [|j].
    { specialize (Hfirst eq_refl). unfold line_feed_at in Hfirst. simpl in Hfirst.
      congruence. }
    destruct (get_pred_is_Some whole j c Hc) as [p Hp].
    subst prev. rewrite Hp. simpl. unfold line_feed_at at 1. rewrite Hp.
    destruct rest as [|d rest'].
    { exfalso. apply (Hlast 0); [|done]. unfold line_feed_at. simpl. done. }
    pose proof (Hget 1) as Hd. simpl in Hd.
    replace (S (j + 1)) with (S (S j)) in Hd by lia.
    unfold line_feed_at, marker_at. rewrite Hd. simpl.
    destruct (Ascii.eqb p LF), (Ascii.eqb d LF),
      (Ascii.eqb d "*"), (Ascii.eqb d "-"); done.
  - apply IH.
    + intros i. specialize (Hget (S i)). simpl in Hget.
      by replace (S k + i) with (k + S i) by lia.
    + pose proof (Hget 0) as Hc. rewrite Nat.add_0_r in Hc. by simpl in Hc.
    + done.
    + intros i Hi. apply (Hlast (S i)). done.
Qed.

Lemma replace_soft_breaks_trimmed (s : string) :
  trimmed s → replace_soft_breaks s = collapse s.
Proof.
  intros [H0 Hlast]. unfold replace_soft_breaks, collapse.
  apply replace_soft_breaks_from_spec; [done|done|..].
  - intros _. unfold line_feed_at. destruct (String.get 0 s) as [c|] eqn:E; [|done].
    destruct (Ascii.eqb c LF) eqn:Ec; [|done].
    apply line_feed_is_white_space in Ec. specialize (H0 c eq_refl). congruence.
  - intros i Hi Hnone. unfold line_feed_at in Hi.
    destruct (String.get i s) as [c|] eqn:E; [|done].
    apply line_feed_is_white_space in Hi. specialize (Hlast i c E Hnone). congruence.
Qed.

Lemma soft_break_line_feed (s : string) (i : nat) (c : ascii) :
  String.get i s = Some c → soft_break s i = true → is_white_space c = true.
Proof.
  unfold soft_break, line_feed_at. intros ->.
  destruct (Ascii.eqb c LF) eqn:Ec; simpl; [|done].
  intros _. by apply line_feed_is_white_space.
Qed.

Lemma trimmed_collapse (s : string) : trimmed s → trimmed (collapse s).
Proof.
  intros [H0 Hlast]. unfold collapse. split.
  - intros c. rewrite get_map_index. simpl.
    destruct (String.get 0 s) as [a|] eqn:E; simpl; [|done].
    destruct (soft_break s 0) eqn:Eb.
    + pose proof (soft_break_line_feed s 0 a E Eb). specialize (H0 a eq_refl).
      congruence.
    + intros [= <-]. by apply H0.
  - intros i c. rewrite !get_map_index. simpl.
    destruct (String.get i s) as [a|] eqn:E; simpl; [|done].
    destruct (String.get (S i) s) eqn:E'; simpl; [done|].
    intros H _. destruct (soft_break s i) eqn:Eb.
    + pose proof (soft_break_line_feed s i a E Eb). specialize (Hlast i a E E').
      congruence.
    + injection H as <-. by apply (Hlast i).
Qed.

Lemma get_collapse (s : string) (i : nat) :
  String.get i (collapse s)
  = (λ c, if soft_break s i then SP else c) <$> String.get i s.
Proof. unfold collapse. by rewrite get_map_index. Qed.

(** The second [trim] of the description changes nothing. *)
Lemma trim_replace_soft_breaks (s : string) :
  trim (replace_soft_breaks (trim s)) = collapse (trim s).
Proof.
  pose proof (trimmed_trim s) as Ht.
  rewrite (replace_soft_breaks_trimmed _ Ht).
  apply trim_trimmed. by apply trimmed_collapse.
Qed.

(** *** [split] and [join] undo each other *)

Lemma append_String (c : ascii) (s t : string) :
  String c s ++ t = String c (s ++ t).
Proof. reflexivity. Qed.

Lemma append_empty_r (s : string) : s ++ "" = s.
Proof. induction s as [|c s IH]; [done|by rewrite append_String, IH]. Qed.

Lemma append_assoc (s1 s2 s3 : string) : (s1 ++ s2) ++ s3 = s1 ++ (s2 ++ s3).
Proof. induction s1 as [|c s1 IH]; [done|by rewrite !append_String, IH]. Qed.

Lemma length_append (s t : string) :
  String.length (s ++ t) = (String.length s + String.length t)%nat.
Proof. induction s as [|c s IH]; [done|rewrite append_String; simpl; lia]. Qed.

Lemma starts_with_append (p s : string) :
  starts_with p s = true → ∃ rest, s = p ++ rest.
Proof.
  revert s; induction p as [|a p IH]; intros s; simpl; [by exists s|].
  destruct s as [|b s]; [done|].
  intros [Hab Hrest]%andb_prop. apply Ascii.eqb_eq in Hab as <-.
  destruct (IH s Hrest) as [rest ->]. by exists rest.
Qed.

Lemma split_from_skip (sep pre cur s : string) :
  split_from sep (String.length pre) cur (pre ++ s) = split_from sep 0 cur s.
Proof. induction pre as [|c pre IH]; [done|by rewrite append_String]. Qed.

Lemma split_from_nonempty (sep : string) (skip : nat) (cur s : string) :
  split_from sep skip cur s ≠ [].
Proof.
  revert skip cur; induction s as [|c s IH]; intros skip cur; simpl; [done|].
  destruct skip; [|apply IH].
  destruct (starts_with sep (String c s)); [done|apply IH].
Qed.

Lemma join_cons (sep p : string) (parts : list string) :
  parts ≠ [] → join sep (p :: parts) = p ++ sep ++ join sep parts.
Proof. by destruct parts. Qed.

Lemma join_split_from (sep : string) :
  sep ≠ "" →
  ∀ (n : nat) (s cur : string),
    (String.length s ≤ n)%nat → join sep (split_from sep 0 cur s) = cur ++ s.
Proof.
  intros Hsep. induction n as [|n IH]; intros s cur Hlen.
  - destruct s; simpl in *; [by rewrite append_empty_r|lia].
  - destruct s as [|c rest]; [simpl; by rewrite append_empty_r|].
    cbn [split_from].
    destruct (starts_with sep (String c rest)) eqn:E.
    + destruct sep as [|a sep']; [done|].
      apply starts_with_append in E as [tail E]. rewrite append_String in E.
      injection E as -> ->.
      replace (String.length (String a sep') - 1) with (String.length sep')
        by (simpl; lia).
      rewrite split_from_skip, join_cons by apply split_from_nonempty.
      rewrite IH; [done|].
      simpl in Hlen. rewrite length_append in Hlen. lia.
    + rewrite IH by (simpl in Hlen; lia).
      by rewrite append_assoc.
Qed.

(** Joining the segments of [s.split(sep)] with the separator gives [s]
    back. *)
Lemma join_split (sep s : string) : sep ≠ "" → join sep (split sep s) = s.
Proof.
  intros Hsep. unfold split.
  by rewrite (join_split_from sep Hsep (String.length s) s "").
Qed.

(** [s.split(sep)] has a last segment: [.at(-1)] is never [undefined]
    there. *)
Lemma at_last_split_is_Some (sep s : string) : is_Some (at_last (split sep s)).
Proof.
  unfold at_last, split.
  pose proof (split_from_nonempty sep 0 "" s) as H.
  destruct (split_from sep 0 "" s) as [|p l] using rev_ind; [done|].
  rewrite last_snoc. by eexists.
Qed.

End JSStringFacts.

(** ** The operations of the code are those of the specification's words *)

Module WordingFacts.
Import JSString Wording.

Lemma join_concat (sep : string) (parts : list string) :
  join sep parts = String.concat sep parts.
Proof.
  induction parts as [|p rest IH]; [done|].
  destruct rest as [|q rest]; [done|].
  change (join sep (p :: q :: rest)) with (p ++ sep ++ join sep (q :: rest)).
  by rewrite IH.
Qed.

Lemma replace_cr_filter (s : string) : replace_cr s = without_carriage_returns s.
Proof.
  unfold without_carriage_returns.
  induction s as [|c s IH]; [done|]. cbn [replace_cr list_ascii_of_string List.filter].
  change carriage_return with CR. destruct (Ascii.eqb c CR); simpl; by rewrite IH.
Qed.

Lemma is_white_space_white (c : ascii) : is_white_space c = white c.
Proof. destruct c as [[] [] [] [] [] [] [] []]; reflexivity. Qed.

Lemma trimStart_drop_white (s : string) :
  list_ascii_of_string (trimStart s) = drop_white (list_ascii_of_string s).
Proof.
  induction s as [|c s IH]; [done|]. cbn [trimStart list_ascii_of_string drop_white].
  rewrite is_white_space_white. by destruct (white c).
Qed.

Lemma drop_white_snoc (units : list ascii) (c : ascii) :
  drop_white (units ++ [c])
  = match drop_white units with
    | [] => if white c then [] else [c]
    | kept => (kept ++ [c])%list
    end.
Proof.
  induction units as [|d units IH]; simpl; [by destruct (white c)|].
  by destruct (white d).
Qed.

Lemma trimEnd_rev (s : string) :
  list_ascii_of_string (trimEnd s)
  = rev (drop_white (rev (list_ascii_of_string s))).
Proof.
  induction s as [|c s IH]; [done|].
  change (list_ascii_of_string (String c s)) with (c :: list_ascii_of_string s).
  change (rev (c :: list_ascii_of_string s))
    with (rev (list_ascii_of_string s) ++ [c])%list.
  rewrite drop_white_snoc. cbn [trimEnd].
  destruct (drop_white (rev (list_ascii_of_string s))) as [|d kept].
  - destruct (trimEnd s); [|done].
    rewrite is_white_space_white. by destruct (white c).
  - destruct (trimEnd s) as [|k rest].
    + exfalso. change (@nil ascii = rev (d :: kept)) in IH.
      apply (f_equal (@length ascii)) in IH. rewrite length_rev in IH. done.
    + change (list_ascii_of_string (String c (String k rest)))
        with (c :: list_ascii_of_string (String k rest)).
      by rewrite IH, rev_app_distr.
Qed.

Lemma trim_trimmed_text (s : string) : trim s = trimmed_text s.
Proof.
  unfold trim, trimmed_text.
  rewrite <- trimStart_drop_white, <- trimEnd_rev.
  by rewrite string_of_list_ascii_of_string.
Qed.

(** The text the code collapses is the text the specification prepares. *)
Lemma comment_text_prepared (comments : list SymbolDisplayPart) :
  comment_text comments = prepared (text <$> comments).
Proof.
  unfold comment_text, prepared, joined.
  by rewrite join_concat, replace_cr_filter, trim_trimmed_text.
Qed.

Lemma spec_description_wording (comments : list SymbolDisplayPart) :
  spec_description comments = Wording.description (text <$> comments).
Proof.
  unfold Wording.description. rewrite <- comment_text_prepared. reflexivity.
Qed.

Lemma tag_body_wording (tag : JSDocTagInfo) : tag_body tag = body_text tag.
Proof.
  unfold tag_body, body_text. rewrite join_concat.
  by destruct (tag_text tag).
Qed.

End WordingFacts.

(** ** Facts about records and the merge *)

Module RecordFacts.

Lemma spread_Some (target src : Annotations) :
  spread target (Some src) = src ∪ target.
Proof.
  unfold spread.
  apply (map_fold_weak_ind (λ acc m, acc = m ∪ target)).
  - by rewrite (left_id_L ∅ (∪)).
  - intros key value m acc _ ->. by rewrite insert_union_l.
Qed.

Lemma lookup_spread (target : Annotations) (source : option Annotations)
    (key : string) :
  spread target source !! key = or_else (field source key) (target !! key).
Proof.
  destruct source as [src|]; [|done].
  rewrite spread_Some, lookup_union. unfold field; simpl.
  by destruct (src !! key), (target !! key).
Qed.

Lemma field_None_iff (group : option Annotations) :
  (∀ key, field group key = None) ↔ yields_no_field group.
Proof.
  unfold yields_no_field, field. destruct group as [m|]; simpl.
  - rewrite <- map_empty. split; [intros ->; by right|].
    intros [?|[= ->]]; done.
  - split; [by left|done].
Qed.

Lemma field_Some (m : Annotations) (key : string) :
  field (Some m) key = m !! key.
Proof. reflexivity. Qed.

Lemma or_else_None {A} (first second : option A) :
  or_else first second = None ↔ first = None ∧ second = None.
Proof. destruct first; simpl; [split; [done|by intros [? _]]|tauto]. Qed.

Lemma size_eqb_0 (m : Annotations) :
  (size m =? 0)%nat = true ↔ m = ∅.
Proof. rewrite Nat.eqb_eq. apply map_size_empty_iff. Qed.

End RecordFacts.

(** ** Facts about the groups *)

Section GroupFacts.

Variable json5_parse : string → Completion JSValue.
Variable Number_ : string → number.
Variable super_getAnnotations : Node → Completion (option Annotations).
Variable markdownDescription : option bool.

Lemma bind_Normal {A B} (a : A) (f : A → Completion B) : Normal a ≫= f = f a.
Proof. reflexivity. Qed.

Lemma push_example_step (examples : list JSValue) (example : JSDocTagInfo) :
  push_example json5_parse examples example
  = Normal (examples ++ match json5_parse (tag_body example) with
                        | Normal value => [value]
                        | Throw _ => []
                        end)%list.
Proof.
  unfold push_example. destruct (json5_parse (tag_body example)); simpl; [done|].
  by rewrite app_nil_r.
Qed.

Lemma for_of_push_example (jsDocTags : list JSDocTagInfo) (examples : list JSValue) :
  for_of (filter (λ t, name t = "example") jsDocTags)
         (push_example json5_parse) examples
  = Normal (examples ++ parsed_examples json5_parse jsDocTags)%list.
Proof.
  revert examples; induction jsDocTags as [|tag rest IH]; intros examples.
  - simpl. by rewrite app_nil_r.
  - rewrite filter_cons. cbn [parsed_examples].
    destruct (String.eqb_spec (name tag) "example") as [E|E].
    + rewrite decide_True by done. cbn [for_of].
      rewrite push_example_step, bind_Normal, IH, <- app_assoc.
      rewrite WordingFacts.tag_body_wording.
      by destruct (json5_parse (Wording.body_text tag)).
    + rewrite decide_False by done. apply IH.
Qed.

(** The loop with its [try]/[catch] returns normally, with the examples
    the specification describes. *)
Lemma getExampleAnnotation_spec (node : Node) :
  getExampleAnnotation json5_parse node = Normal (spec_examples json5_parse node).
Proof.
  unfold getExampleAnnotation, spec_examples.
  destruct (symbolAtNode node) as [symbol|]; [|done].
  destruct (getJsDocTags symbol) as [|tag rest] eqn:E; [done|].
  rewrite <- E. replace (length (getJsDocTags symbol) =? 0)%nat with false
    by (by rewrite E).
  rewrite for_of_push_example. simpl.
  destruct (parsed_examples json5_parse (getJsDocTags symbol)); simpl; [done|].
  by rewrite insert_empty.
Qed.

Lemma getAnnotations_merged (node : Node) (base : option Annotations) :
  super_getAnnotations node = Normal base →
  getAnnotations json5_parse Number_ super_getAnnotations markdownDescription node
  = Normal (if (size (merged_groups json5_parse Number_ markdownDescription node base) =? 0)%nat then None
            else Some (merged_groups json5_parse Number_ markdownDescription node base)).
Proof.
  intros Hbase. unfold getAnnotations.
  rewrite getExampleAnnotation_spec. simpl. rewrite Hbase. simpl.
  fold (merged_groups json5_parse Number_ markdownDescription node base).
  by destruct (size (merged_groups json5_parse Number_ markdownDescription node base) =? 0)%nat.
Qed.

Lemma lookup_merged_groups (node : Node) (base : option Annotations) (key : string) :
  merged_groups json5_parse Number_ markdownDescription node base !! key =
  or_else (field base key)
    (or_else (field (spec_examples json5_parse node) key)
       (or_else (field (getTypeAnnotation node) key)
          (field (getDescriptionAnnotation Number_ markdownDescription node) key))).
Proof.
  unfold merged_groups. rewrite !RecordFacts.lookup_spread.
  rewrite lookup_empty.
  by destruct (field (getDescriptionAnnotation Number_ markdownDescription node) key).
Qed.

Lemma getTypeAnnotation_eq (node : Node) (symbol : Symbol) :
  symbolAtNode node = Some symbol →
  getTypeAnnotation node =
  if (getFlags symbol =? ConstEnum)%Z
  then Some {[ "type" := JString "number" ]}
  else match find_tag "asType" (getJsDocTags symbol) with
       | Some jsDocTag => Some {[ "type" := JString (tag_body jsDocTag) ]}
       | None => None
       end.
Proof.
  intros Hsym. unfold getTypeAnnotation. rewrite Hsym.
  destruct (getFlags symbol =? ConstEnum)%Z; [by rewrite insert_empty|].
  destruct (getJsDocTags symbol) as [|tag rest] eqn:E; [done|].
  rewrite <- E. replace (length (getJsDocTags symbol) =? 0)%nat with false
    by (by rewrite E).
  destruct (find_tag "asType" (getJsDocTags symbol)); [|done].
  by rewrite insert_empty.
Qed.

(** The description of the code is the description of the specification:
    the last [trim] has nothing left to remove. *)
Lemma description_collapse (comments : list SymbolDisplayPart) :
  JSString.trim (JSString.replace_soft_breaks (comment_text comments))
  = spec_description comments.
Proof. apply JSStringFacts.trim_replace_soft_breaks. Qed.

Lemma getDescriptionAnnotation_eq (node : Node) (symbol : Symbol) :
  symbolAtNode node = Some symbol →
  getDocumentationComment symbol ≠ [] →
  getDescriptionAnnotation Number_ markdownDescription node =
  let comments := getDocumentationComment symbol in
  let description := JString (spec_description comments) in
  let data : Annotations :=
    if truthy markdownDescription
    then <["markdownDescription" := JString (comment_text comments)]>
           {[ "description" := description ]}
    else {[ "description" := description ]} in
  let anyOf := collect_members Number_ symbol in
  if (0 <? length anyOf)%nat
  then Some (<["title" := description]> (<["anyOf" := JArray anyOf]> data))
  else Some data.
Proof.
  intros Hsym Hdoc. unfold getDescriptionAnnotation. rewrite Hsym.
  destruct (getDocumentationComment symbol) as [|part rest] eqn:E; [done|].
  rewrite <- E. replace (length (getDocumentationComment symbol) =? 0)%nat
    with false by (by rewrite E).
  cbv zeta. rewrite description_collapse.
  by rewrite RecordFacts.spread_Some, (right_id_L ∅ (∪)), !insert_empty.
Qed.

Lemma getDescriptionAnnotation_no_comment (node : Node) (symbol : Symbol) :
  symbolAtNode node = Some symbol →
  getDocumentationComment symbol = [] →
  getDescriptionAnnotation Number_ markdownDescription node = None.
Proof.
  intros Hsym Hdoc. unfold getDescriptionAnnotation. by rewrite Hsym, Hdoc.
Qed.

Lemma has_flag_ConstEnum_false (symbol : Symbol) :
  has_flag ConstEnum symbol = false → getFlags symbol ≠ ConstEnum.
Proof. unfold has_flag. intros H E. rewrite E in H. discriminate H. Qed.

Lemma collect_members_not_enum (symbol : Symbol) :
  getFlags symbol ≠ ConstEnum → collect_members Number_ symbol = [].
Proof.
  intros H. unfold collect_members.
  by destruct (Z.eqb_spec (getFlags symbol) ConstEnum).
Qed.

Lemma fold_push_member_skipped (skipped : list Node) (anyOf : list JSValue) :
  Forall (λ child, symbolAtNode child = None) skipped →
  fold_left (push_member Number_) skipped anyOf = anyOf.
Proof.
  intros H; revert anyOf; induction H as [|child rest Hc _ IH]; intros anyOf;
    simpl; [done|].
  unfold push_member at 2. rewrite Hc. apply IH.
Qed.

Lemma field_spec_examples_ne (node : Node) (key : string) :
  key ≠ "examples" → field (spec_examples json5_parse node) key = None.
Proof.
  intros Hkey. unfold spec_examples, field.
  destruct (symbolAtNode node) as [symbol|]; [|done].
  destruct (parsed_examples json5_parse (getJsDocTags symbol)); [done|].
  simpl. by rewrite lookup_singleton_ne.
Qed.

Lemma find_tag_Some (tag_name : string) (jsDocTags : list JSDocTagInfo) :
  is_Some (find_tag tag_name jsDocTags)
  ↔ ∃ tag, tag ∈ jsDocTags ∧ name tag = tag_name.
Proof.
  unfold find_tag. split.
  - intros [tag Hfind]. apply find_some in Hfind as [Hin Heq].
    exists tag. split; [by apply list_elem_of_In|by apply String.eqb_eq].
  - intros (tag & Hin & Heq).
    destruct (find _ jsDocTags) as [found|] eqn:E; [by eexists|].
    exfalso. apply list_elem_of_In in Hin.
    pose proof (find_none _ _ E tag Hin) as Hno. simpl in Hno.
    apply String.eqb_neq in Hno. done.
Qed.

End GroupFacts.

(** ** The properties of the reader *)

Section Properties.

Variable json5_parse : string → Completion JSValue.
Variable Number_ : string → number.
Variable super_getAnnotations : Node → Completion (option Annotations).
Variable markdownDescription : option bool.

Local Abbreviation reader_getAnnotations :=
  (getAnnotations json5_parse Number_ super_getAnnotations markdownDescription).
Local Abbreviation reader_getDescriptionAnnotation :=
  (getDescriptionAnnotation Number_ markdownDescription).
Local Abbreviation reader_getExampleAnnotation :=
  (getExampleAnnotation json5_parse).

(** C1: for every node, [getAnnotations] spreads the description group,
    the type group, the example group and the result of the base reader,
    in that order, into one record; a field of the result is the field of
    the last group that has it, so the base reader overrides the three
    groups of this reader, the example group overrides the type and the
    description groups, and the type group overrides the description
    group. *)
Theorem getAnnotations_merge_order (node : Node) (base : option Annotations) :
  super_getAnnotations node = Normal base →
  ∃ (example result : option Annotations),
    reader_getExampleAnnotation node = Normal example
    ∧ reader_getAnnotations node = Normal result
    ∧ (∀ merged, result = Some merged →
         merged =
         spread
           (spread
              (spread (spread ∅ (reader_getDescriptionAnnotation node))
                 (getTypeAnnotation node))
              example)
           base)
    ∧ ∀ key,
        field result key =
        or_else (field base key)
          (or_else (field example key)
             (or_else (field (getTypeAnnotation node) key)
                (field (reader_getDescriptionAnnotation node) key))).
Proof.
  intros Hbase.
  exists (spec_examples json5_parse node). eexists.
  split; [apply getExampleAnnotation_spec|].
  split; [by apply getAnnotations_merged|].
  set (merged := merged_groups json5_parse Number_ markdownDescription node base).
  split.
  - intros m. destruct (size merged =? 0)%nat; [done|]. by intros [= <-].
  - intros key. rewrite <- lookup_merged_groups. fold merged.
    destruct (size merged =? 0)%nat eqn:E; [|done].
    apply RecordFacts.size_eqb_0 in E. rewrite E. simpl.
    by rewrite lookup_empty.
Qed.

(** C2: [getAnnotations] returns absent exactly when none of the four
    groups (description, type, example, base) yields a field; it never
    returns a record without fields; for a node with no symbol whose base
    reader yields no field, it returns absent. *)
Theorem getAnnotations_absent_iff (node : Node) (base : option Annotations) :
  super_getAnnotations node = Normal base →
  ∃ example : option Annotations,
    reader_getExampleAnnotation node = Normal example
    ∧ (reader_getAnnotations node = Normal None
       ↔ yields_no_field (reader_getDescriptionAnnotation node)
         ∧ yields_no_field (getTypeAnnotation node)
         ∧ yields_no_field example
         ∧ yields_no_field base)
    ∧ reader_getAnnotations node ≠ Normal (Some ∅)
    ∧ (symbolAtNode node = None → yields_no_field base →
       reader_getAnnotations node = Normal None).
Proof.
  intros Hbase.
  exists (spec_examples json5_parse node).
  split; [apply getExampleAnnotation_spec|].
  rewrite (getAnnotations_merged _ _ _ _ _ _ Hbase).
  set (merged := merged_groups json5_parse Number_ markdownDescription node base).
  assert (Hempty : merged = ∅
     ↔ yields_no_field (reader_getDescriptionAnnotation node)
       ∧ yields_no_field (getTypeAnnotation node)
       ∧ yields_no_field (spec_examples json5_parse node)
       ∧ yields_no_field base).
  { rewrite map_empty, <- !RecordFacts.field_None_iff. subst merged. split.
    - intros H. repeat split; intros key; specialize (H key);
        rewrite lookup_merged_groups, !RecordFacts.or_else_None in H; tauto.
    - intros (Hd & Ht & He & Hb) key.
      rewrite lookup_merged_groups, !RecordFacts.or_else_None. auto. }
  destruct (size merged =? 0)%nat eqn:E.
  - apply RecordFacts.size_eqb_0 in E. split; [split|split]; try done.
    intros _. by apply Hempty.
  - assert (merged ≠ ∅) as Hne.
    { intros H. apply RecordFacts.size_eqb_0 in H. congruence. }
    split; [split|split].
    + done.
    + intros H. exfalso. by apply Hne, Hempty.
    + intros [= H]. done.
    + intros Hsym Hb. exfalso. apply Hne, Hempty.
      unfold getDescriptionAnnotation, getTypeAnnotation, spec_examples.
      rewrite Hsym. repeat split; try done; by left.
Qed.

(** C9: whatever the node and whatever [json5.parse] does on the example
    tags, as long as the base reader returns normally [getAnnotations]
    returns normally too, with absent or with a record that has fields;
    the example group always returns normally, since the [catch] takes
    every error of the parser; [isNullable] answers true or false. *)
Theorem getAnnotations_never_throws (node : Node) :
  (∃ base, super_getAnnotations node = Normal base) →
  (∃ result, reader_getAnnotations node = Normal result ∧ result ≠ Some ∅)
  ∧ (∃ example, reader_getExampleAnnotation node = Normal example)
  ∧ (isNullable node = true ∨ isNullable node = false).
Proof.
  intros [base Hbase]. repeat split.
  - rewrite (getAnnotations_merged _ _ _ _ _ _ Hbase). eexists; split; [done|].
    destruct (size _ =? 0)%nat eqn:E; [done|].
    intros [= H]. apply RecordFacts.size_eqb_0 in H. congruence.
  - eexists. apply getExampleAnnotation_spec.
  - destruct (isNullable node); auto.
Qed.

(** The enum case where the code reaches it, at flags that are exactly
    [ConstEnum]: for such a symbol with a documentation comment, whose
    first declaration
    has, after children without symbol, the members [A = 1] (comment
    "first") and [B = 2] (comment "second"), [getAnnotations] yields type
    "number", [anyOf] with one descriptor per member in member order, and a
    title equal to the collapsed description of the enum. The [const] of a
    member is [Number] of the last segment of its source text split on
    "= ": "1" and "2" here. The base reader is taken silent on the three
    fields. *)
Theorem getAnnotations_const_enum
    (node declaration member_a member_b : Node) (others skipped : list Node)
    (symbol symbol_a symbol_b : Symbol) (base : option Annotations) :
  symbolAtNode node = Some symbol →
  getFlags symbol = ConstEnum →
  getDocumentationComment symbol ≠ [] →
  getDeclarations symbol = Some (declaration :: others) →
  forEachChild declaration = (skipped ++ [member_a; member_b])%list →
  Forall (λ child, symbolAtNode child = None) skipped →
  symbolAtNode member_a = Some symbol_a →
  getText member_a = "A = 1" →
  comment_text (getDocumentationComment symbol_a) = "first" →
  symbolAtNode member_b = Some symbol_b →
  getText member_b = "B = 2" →
  comment_text (getDocumentationComment symbol_b) = "second" →
  Number_ "1" = number_of_Z 1 →
  Number_ "2" = number_of_Z 2 →
  super_getAnnotations node = Normal base →
  field base "type" = None →
  field base "anyOf" = None →
  field base "title" = None →
  at_last (JSString.split "= " "A = 1") = Some "1"
  ∧ at_last (JSString.split "= " "B = 2") = Some "2"
  ∧ ∃ record,
      reader_getAnnotations node = Normal (Some record)
      ∧ record !! "type" = Some (JString "number")
      ∧ record !! "anyOf" =
        Some (JArray
                [JObject {[ "const" := JNumber (number_of_Z 1);
                            "description" := JString "first" ]};
                 JObject {[ "const" := JNumber (number_of_Z 2);
                            "description" := JString "second" ]}])
      ∧ record !! "title" =
        Some (JString (spec_description (getDocumentationComment symbol))).
Proof.
  intros Hsym Hflags Hdoc Hdecl Hchildren Hskipped Ha Htexta Hdoca Hb Htextb Hdocb
    Hone Htwo Hbase Htype HanyOf Htitle.
  split; [reflexivity|]. split; [reflexivity|].
  assert (Hmembers : collect_members Number_ symbol =
    [JObject {[ "const" := JNumber (number_of_Z 1);
                "description" := JString "first" ]};
     JObject {[ "const" := JNumber (number_of_Z 2);
                "description" := JString "second" ]}]).
  { unfold collect_members. rewrite Hflags, Hdecl. simpl. rewrite Hchildren.
    rewrite fold_left_app, (fold_push_member_skipped _ skipped) by done. simpl.
    unfold push_member. rewrite Ha, Hb, Htexta, Htextb, Hdoca, Hdocb.
    change (at_last (JSString.split "= " "A = 1")) with (Some "1").
    change (at_last (JSString.split "= " "B = 2")) with (Some "2").
    cbv iota beta. rewrite Hone, Htwo. reflexivity. }
  pose proof (getTypeAnnotation_eq node symbol Hsym) as Ht.
  rewrite Hflags in Ht. simpl in Ht.
  pose proof (getDescriptionAnnotation_eq Number_ markdownDescription
                node symbol Hsym Hdoc) as Hd.
  cbv zeta in Hd. rewrite Hmembers in Hd. simpl in Hd.
  rewrite (getAnnotations_merged _ _ _ _ _ _ Hbase).
  set (merged := merged_groups json5_parse Number_ markdownDescription node base).
  assert (Hlookup : ∀ key, key ≠ "examples" → field base key = None →
    merged !! key =
    or_else (field (getTypeAnnotation node) key)
            (field (reader_getDescriptionAnnotation node) key)).
  { intros key Hkey Hb'. subst merged.
    by rewrite lookup_merged_groups, Hb', field_spec_examples_ne. }
  assert (merged !! "type" = Some (JString "number")) as Hmt.
  { rewrite Hlookup, Ht by done. reflexivity. }
  destruct (size merged =? 0)%nat eqn:E.
  { apply RecordFacts.size_eqb_0 in E. rewrite E, lookup_empty in Hmt. done. }
  exists merged. split; [done|]. split; [done|].
  rewrite !Hlookup, Ht, Hd by done. unfold field; simpl.
  rewrite !lookup_singleton_ne by done. simpl.
  rewrite lookup_insert_ne, lookup_insert_eq, lookup_insert_eq by done.
  done.
Qed.

(** C4, amended: the description field is the fragments of the
    documentation comment joined with single spaces, without carriage
    returns, trimmed, where a newline becomes a space exactly when no other
    newline stands next to it and neither a star nor a hyphen follows it.
    So a comment "line one" / "line two" collapses to "line one line two",
    and the newline of "item one" / "- item two" stays. *)
Theorem description_collapses_soft_breaks :
  (∀ (node : Node) (symbol : Symbol),
     symbolAtNode node = Some symbol →
     getDocumentationComment symbol ≠ [] →
     field (reader_getDescriptionAnnotation node) "description" =
     Some (JString (Wording.description (text <$> getDocumentationComment symbol))))
  ∧ field (reader_getDescriptionAnnotation Sample.documented_node) "description"
    = Some (JString "line one line two")
  ∧ field (reader_getDescriptionAnnotation Sample.list_node) "description"
    = Some (JString ("item one" ++ Sample.nl ++ "- item two")).
Proof.
  assert (Hgen : ∀ (node : Node) (symbol : Symbol),
     symbolAtNode node = Some symbol →
     getDocumentationComment symbol ≠ [] →
     field (reader_getDescriptionAnnotation node) "description" =
     Some (JString (Wording.description (text <$> getDocumentationComment symbol)))).
  { intros node symbol Hsym Hdoc.
    rewrite (getDescriptionAnnotation_eq _ _ _ _ Hsym Hdoc). cbv zeta.
    rewrite <- WordingFacts.spec_description_wording.
    destruct (0 <? _)%nat, (truthy markdownDescription); unfold field; simpl;
      rewrite ?lookup_insert_ne by done; by rewrite lookup_singleton_eq. }
  split; [exact Hgen|]. split.
  - by rewrite (Hgen Sample.documented_node _ eq_refl).
  - by rewrite (Hgen Sample.list_node _ eq_refl).
Qed.

(** C5: the example group joins the body fragments of every example tag,
    with nothing between them, and parses the joined text: the values that parse make the examples array, in tag order; a
    text on which the parser throws is dropped, and the loop goes on; when
    no example parses the group is absent, never an empty array; and what
    the parser does changes no field of [getAnnotations] but examples. *)
Theorem getExampleAnnotation_parses_in_order (node : Node) :
  reader_getExampleAnnotation node = Normal (spec_examples json5_parse node)
  ∧ (∀ symbol, symbolAtNode node = Some symbol →
       parsed_examples json5_parse (getJsDocTags symbol) = [] →
       reader_getExampleAnnotation node = Normal None)
  ∧ (∀ values, reader_getExampleAnnotation node
               = Normal (Some {[ "examples" := JArray values ]}) →
       values ≠ [])
  ∧ ∀ (other_parse : string → Completion JSValue) base key,
      super_getAnnotations node = Normal base →
      key ≠ "examples" →
      ∃ result result',
        reader_getAnnotations node = Normal result
        ∧ getAnnotations other_parse Number_ super_getAnnotations
            markdownDescription node = Normal result'
        ∧ field result key = field result' key.
Proof.
  split; [apply getExampleAnnotation_spec|]. split; [|split].
  - intros symbol Hsym Hnone. rewrite getExampleAnnotation_spec.
    unfold spec_examples. by rewrite Hsym, Hnone.
  - intros values. rewrite getExampleAnnotation_spec. unfold spec_examples.
    destruct (symbolAtNode node) as [symbol|]; [|done].
    destruct (parsed_examples _ _) as [|v vs] eqn:E; [done|].
    intros H.
    apply (f_equal (λ c, match c with
                         | Normal group => field group "examples"
                         | Throw _ => None
                         end)) in H.
    rewrite !RecordFacts.field_Some, !lookup_singleton_eq in H.
    by injection H as <-.
  - intros other_parse base key Hbase Hkey.
    rewrite (getAnnotations_merged json5_parse _ _ _ _ _ Hbase).
    rewrite (getAnnotations_merged other_parse _ _ _ _ _ Hbase).
    eexists _, _. split; [done|]. split; [done|].
    assert (∀ merged : Annotations,
              field (if (size merged =? 0)%nat then None else Some merged) key
              = merged !! key) as Hfield.
    { intros merged. destruct (size merged =? 0)%nat eqn:E; [|done].
      apply RecordFacts.size_eqb_0 in E. by rewrite E, lookup_empty. }
    by rewrite !Hfield, !lookup_merged_groups, !field_spec_examples_ne.
Qed.

(** The type group, case by case: type "number" when the flags of the
    symbol are [ConstEnum], whatever the tags; otherwise the first [asType]
    tag, if there is one, gives the type: its body fragments joined with no
    separator, taken as they are; with no such tag the group is absent. *)
Lemma getTypeAnnotation_override (node : Node) (symbol : Symbol) :
  symbolAtNode node = Some symbol →
  (getFlags symbol = ConstEnum →
   getTypeAnnotation node = Some {[ "type" := JString "number" ]})
  ∧ (getFlags symbol ≠ ConstEnum →
     getTypeAnnotation node =
     match find_tag "asType" (getJsDocTags symbol) with
     | Some jsDocTag =>
         Some {[ "type" :=
                   JString (JSString.join "" (text <$> default [] (tag_text jsDocTag))) ]}
     | None => None
     end).
Proof.
  intros Hsym. rewrite (getTypeAnnotation_eq node symbol Hsym).
  destruct (Z.eqb_spec (getFlags symbol) ConstEnum); split; done.
Qed.

(** C7: [isNullable] is true exactly when the symbol of the node resolves
    and carries a tag whose name is "nullable", letter for letter; with
    no symbol, or with no tag, it is false. *)
Theorem isNullable_iff_nullable_tag (node : Node) :
  (isNullable node = true
   ↔ ∃ symbol tag,
       symbolAtNode node = Some symbol
       ∧ tag ∈ getJsDocTags symbol
       ∧ name tag = "nullable")
  ∧ (symbolAtNode node = None → isNullable node = false)
  ∧ (∀ symbol, symbolAtNode node = Some symbol → getJsDocTags symbol = [] →
       isNullable node = false).
Proof.
  unfold isNullable. destruct (symbolAtNode node) as [symbol|].
  - split; [|split; [done|]].
    + destruct (getJsDocTags symbol) as [|t rest] eqn:E.
      { simpl. split; [done|]. intros (s & tag & [= <-] & Hin & _).
        rewrite E in Hin. by apply elem_of_nil in Hin. }
      rewrite <- E. replace (length (getJsDocTags symbol) =? 0)%nat with false
        by (by rewrite E).
      split.
      * destruct (find_tag "nullable" (getJsDocTags symbol)) eqn:F; [|done].
        intros _. destruct (proj1 (find_tag_Some _ _) (mk_is_Some _ _ F))
          as (tag & Hin & Hname).
        by exists symbol, tag.
      * intros (s & tag & [= <-] & Hin & Hname).
        destruct (proj2 (find_tag_Some "nullable" (getJsDocTags symbol)))
          as [found ->];
          [by exists tag|done].
    + intros s [= <-] ->. done.
  - split; [|done]. split; [done|]. by intros (s & tag & H & _).
Qed.

(** C8, amended: for a node whose symbol does not carry the constant enum
    flag, has a documentation comment and no tag, and whose base reader
    yields no field, [getAnnotations] returns the record made of
    description, and of markdownDescription exactly when that mode is
    configured; it has no type, no examples and no anyOf. *)
Theorem getAnnotations_comment_only
    (node : Node) (symbol : Symbol) (base : option Annotations) :
  symbolAtNode node = Some symbol →
  has_flag ConstEnum symbol = false →
  getDocumentationComment symbol ≠ [] →
  getJsDocTags symbol = [] →
  super_getAnnotations node = Normal base →
  yields_no_field base →
  let comments := getDocumentationComment symbol in
  let record : Annotations :=
    if truthy markdownDescription
    then {[ "description" := JString (spec_description comments);
            "markdownDescription" := JString (comment_text comments) ]}
    else {[ "description" := JString (spec_description comments) ]} in
  reader_getAnnotations node = Normal (Some record)
  ∧ record !! "type" = None
  ∧ record !! "examples" = None
  ∧ record !! "anyOf" = None.
Proof.
  intros Hsym Hflags%has_flag_ConstEnum_false Hdoc Htags Hbase Hnone
    comments record.
  assert (merged_groups json5_parse Number_ markdownDescription node base = record)
    as Hmerged.
  { apply map_eq. intros key. rewrite lookup_merged_groups.
    rewrite (proj2 (RecordFacts.field_None_iff base) Hnone key). simpl.
    unfold spec_examples. rewrite Hsym, Htags. simpl.
    rewrite (getTypeAnnotation_eq node symbol Hsym), Htags.
    destruct (Z.eqb_spec (getFlags symbol) ConstEnum); [done|]. simpl.
    rewrite (getDescriptionAnnotation_eq _ _ _ _ Hsym Hdoc). cbv zeta.
    rewrite collect_members_not_enum by done. simpl. subst record comments.
    destruct (truthy markdownDescription); simpl; [|done].
    reflexivity. }
  rewrite (getAnnotations_merged _ _ _ _ _ _ Hbase), Hmerged.
  assert (record !! "description" = Some (JString (spec_description comments)))
    as Hdesc.
  { subst record. destruct (truthy markdownDescription);
      [by rewrite lookup_insert_eq|by rewrite lookup_singleton_eq]. }
  split.
  - destruct (size record =? 0)%nat eqn:E; [|done].
    apply RecordFacts.size_eqb_0 in E. rewrite E, lookup_empty in Hdesc. done.
  - subst record. destruct (truthy markdownDescription);
      rewrite ?lookup_insert_ne by done; rewrite !lookup_singleton_ne by done;
      done.
Qed.


End Properties.

(** ** The properties at the sample inputs *)

Lemma getAnnotations_merge_order_witness :
  Sample.typing_base Sample.tagged_node
  = Normal (Some {[ "type" := JString "string" ]})
  ∧ ∃ result,
      getAnnotations Sample.parse Sample.to_number Sample.typing_base None
        Sample.tagged_node = Normal result
      ∧ field result "type" = Some (JString "string")
      ∧ field result "examples" = Some (JArray [JNumber (number_of_Z 1)])
      ∧ field result "description" = Some (JString "A width").
Proof.
  split; [reflexivity|].
  destruct (getAnnotations_merge_order Sample.parse Sample.to_number
              Sample.typing_base None Sample.tagged_node _ eq_refl)
    as (example & result & Hex & Hres & _ & Hfield).
  exists result. split; [exact Hres|].
  rewrite !Hfield.
  assert (example = spec_examples Sample.parse Sample.tagged_node) as ->.
  { pose proof (getExampleAnnotation_spec Sample.parse Sample.tagged_node) as H.
    rewrite Hex in H. by injection H. }
  repeat split; reflexivity.
Defined.

Lemma getAnnotations_absent_iff_witness :
  Sample.silent_base Sample.unresolved_node = Normal None
  ∧ symbolAtNode Sample.unresolved_node = None
  ∧ yields_no_field None
  ∧ getAnnotations Sample.parse Sample.to_number Sample.silent_base None
      Sample.unresolved_node = Normal None.
Proof.
  split; [reflexivity|]. split; [reflexivity|]. split; [by left|].
  destruct (getAnnotations_absent_iff Sample.parse Sample.to_number
              Sample.silent_base None Sample.unresolved_node None eq_refl)
    as (example & _ & _ & _ & H).
  apply H; [reflexivity|by left].
Defined.

Lemma getAnnotations_const_enum_witness :
  Sample.to_number "1" = number_of_Z 1
  ∧ Sample.to_number "2" = number_of_Z 2
  ∧ symbolAtNode Sample.enum_node = Some Sample.enum_symbol
  ∧ getFlags Sample.enum_symbol = ConstEnum
  ∧ ∃ record,
      getAnnotations Sample.parse Sample.to_number Sample.silent_base None
        Sample.enum_node = Normal (Some record)
      ∧ record !! "type" = Some (JString "number")
      ∧ record !! "anyOf" =
        Some (JArray
                [JObject {[ "const" := JNumber (number_of_Z 1);
                            "description" := JString "first" ]};
                 JObject {[ "const" := JNumber (number_of_Z 2);
                            "description" := JString "second" ]}])
      ∧ record !! "title" = Some (JString "An enum").
Proof.
  do 4 (split; [reflexivity|]).
  destruct (getAnnotations_const_enum Sample.parse Sample.to_number
              Sample.silent_base None Sample.enum_node
              (mkNode None "const enum E { A = 1, B = 2 }" Sample.enum_children)
              Sample.member_A Sample.member_B []
              [Sample.leaf None "const"; Sample.leaf None "E"]
              Sample.enum_symbol
              (mkSymbol EnumMember [Sample.part "first"] [] None)
              (mkSymbol EnumMember [Sample.part "second"] [] None)
              None)
    as (_ & _ & record & Hres & Htype & HanyOf & Htitle);
    try reflexivity; [done|by repeat constructor|].
  exists record. repeat split; assumption.
Defined.

Lemma description_collapses_soft_breaks_witness :
  symbolAtNode Sample.documented_node
  = Some (mkSymbol Property [Sample.part ("line one" ++ Sample.nl ++ "line two")] [] None)
  ∧ field (getDescriptionAnnotation Sample.to_number (Some true)
             Sample.documented_node) "description"
    = Some (JString "line one line two").
Proof.
  split; [reflexivity|].
  rewrite (proj1 (description_collapses_soft_breaks Sample.to_number (Some true))
             Sample.documented_node _ eq_refl); [reflexivity|done].
Defined.

Lemma getExampleAnnotation_parses_in_order_witness :
  Sample.parse "not json" = Throw (JString "SyntaxError")
  ∧ getExampleAnnotation Sample.parse Sample.tagged_node
    = Normal (Some {[ "examples" := JArray [JNumber (number_of_Z 1)] ]})
  ∧ getExampleAnnotation Sample.parse SampleMore.fragmented_node
    = Normal (Some {[ "examples" := JArray [JNull; JNumber (number_of_Z 1)] ]})
  ∧ ∃ result result',
      getAnnotations Sample.parse Sample.to_number Sample.silent_base None
        Sample.tagged_node = Normal result
      ∧ getAnnotations (λ _, Throw JNull) Sample.to_number Sample.silent_base
          None Sample.tagged_node = Normal result'
      ∧ field result "type" = field result' "type".
Proof.
  split; [reflexivity|].
  destruct (getExampleAnnotation_parses_in_order Sample.parse Sample.to_number
              Sample.silent_base None Sample.tagged_node)
    as (Hspec & _ & _ & Hother).
  split; [rewrite Hspec; reflexivity|].
  split.
  - rewrite (proj1 (getExampleAnnotation_parses_in_order Sample.parse
                      Sample.to_number Sample.silent_base None
                      SampleMore.fragmented_node)).
    reflexivity.
  - apply (Hother (λ _, Throw JNull) None "type"); [reflexivity|done].
Defined.

Lemma getTypeAnnotation_override_witness :
  symbolAtNode Sample.merged_node = Some Sample.merged_symbol
  ∧ getFlags Sample.merged_symbol ≠ ConstEnum
  ∧ getTypeAnnotation Sample.merged_node
    = Some {[ "type" := JString "CustomType" ]}
  ∧ getFlags Sample.enum_symbol = ConstEnum
  ∧ getTypeAnnotation Sample.enum_node = Some {[ "type" := JString "number" ]}.
Proof.
  split; [reflexivity|]. split; [done|].
  split.
  - rewrite (proj2 (getTypeAnnotation_override Sample.merged_node
                      Sample.merged_symbol eq_refl)); [reflexivity|done].
  - split; [reflexivity|].
    apply (proj1 (getTypeAnnotation_override Sample.enum_node
                    Sample.enum_symbol eq_refl)). reflexivity.
Defined.

Lemma isNullable_iff_nullable_tag_witness :
  Sample.bare_tag "nullable" ∈ [Sample.tag "example" "not json";
                                Sample.bare_tag "nullable";
                                Sample.tag "example" "1";
                                Sample.tag "asType" "CustomType"]
  ∧ isNullable Sample.tagged_node = true
  ∧ isNullable Sample.unresolved_node = false
  ∧ isNullable
      (Sample.leaf (Some (mkSymbol Property [] [Sample.bare_tag "Nullable"] None))
         "width?: number") = false.
Proof.
  assert (Sample.bare_tag "nullable" ∈ [Sample.tag "example" "not json";
                                        Sample.bare_tag "nullable";
                                        Sample.tag "example" "1";
                                        Sample.tag "asType" "CustomType"]) as Hin.
  { apply list_elem_of_further, list_elem_of_here. }
  split; [exact Hin|]. split.
  - apply (proj1 (isNullable_iff_nullable_tag Sample.tagged_node)).
    eexists _, (Sample.bare_tag "nullable").
    split; [reflexivity|]. split; [exact Hin|reflexivity].
  - split; [|reflexivity].
    apply (proj2 (isNullable_iff_nullable_tag Sample.unresolved_node)).
    reflexivity.
Defined.

Lemma getAnnotations_comment_only_witness :
  has_flag ConstEnum
    (mkSymbol Property [Sample.part ("line one" ++ Sample.nl ++ "line two")] [] None)
  = false
  ∧ Sample.silent_base Sample.documented_node = Normal None
  ∧ getAnnotations Sample.parse Sample.to_number Sample.silent_base (Some true)
      Sample.documented_node
    = Normal (Some {[ "description" := JString "line one line two";
                      "markdownDescription" :=
                        JString ("line one" ++ Sample.nl ++ "line two") ]})
  ∧ getAnnotations Sample.parse Sample.to_number Sample.silent_base None
      Sample.documented_node
    = Normal (Some {[ "description" := JString "line one line two" ]}).
Proof.
  split; [reflexivity|]. split; [reflexivity|]. split.
  - apply (getAnnotations_comment_only Sample.parse Sample.to_number
             Sample.silent_base (Some true) Sample.documented_node _ None eq_refl);
      [reflexivity|done|reflexivity|reflexivity|by left].
  - apply (getAnnotations_comment_only Sample.parse Sample.to_number
             Sample.silent_base None Sample.documented_node _ None eq_refl);
      [reflexivity|done|reflexivity|reflexivity|by left].
Defined.

Lemma getAnnotations_never_throws_witness :
  Sample.silent_base Sample.tagged_node = Normal None
  ∧ Sample.parse "not json" = Throw (JString "SyntaxError")
  ∧ ∃ result,
      getAnnotations Sample.parse Sample.to_number Sample.silent_base None
        Sample.tagged_node = Normal result
      ∧ result ≠ Some ∅.
Proof.
  split; [reflexivity|]. split; [reflexivity|].
  apply (getAnnotations_never_throws Sample.parse Sample.to_number
           Sample.silent_base None Sample.tagged_node).
  by exists None.
Defined.


(** ** Where the code departs from the specification *)

(** C6 at a constant enum merged with a namespace: the [ConstEnum] flag of
    the symbol is set, next to [NamespaceModule]; the code compares the
    whole flag word with [ConstEnum], finds them different, and lets the
    [asType] tag decide the type, where the claim has type "number". *)
Lemma enum_flag_set_but_asType_wins :
  symbolAtNode Sample.merged_node = Some Sample.merged_symbol
  ∧ has_flag ConstEnum Sample.merged_symbol = true
  ∧ getTypeAnnotation Sample.merged_node
    = Some {[ "type" := JString "CustomType" ]}
  ∧ getTypeAnnotation Sample.merged_node
    ≠ Some {[ "type" := JString "number" ]}.
Proof.
  split; [reflexivity|]. split; [reflexivity|]. split; [reflexivity|].
  intros H. apply (f_equal (λ group, field group "type")) in H.
  change (getTypeAnnotation Sample.merged_node)
    with (Some ({[ "type" := JString "CustomType" ]} : Annotations)) in H.
  rewrite !RecordFacts.field_Some, !lookup_singleton_eq in H.
  discriminate H.
Qed.

(** C8 as stated fails: a constant enum with a documentation comment and
    no tag, under a silent base reader, gets type, anyOf and title next to
    its description. *)
Lemma comment_only_enum_has_type_and_anyOf :
  symbolAtNode Sample.enum_node = Some Sample.enum_symbol
  ∧ getDocumentationComment Sample.enum_symbol ≠ []
  ∧ getJsDocTags Sample.enum_symbol = []
  ∧ Sample.silent_base Sample.enum_node = Normal None
  ∧ ∃ record,
      getAnnotations Sample.parse Sample.to_number Sample.silent_base None
        Sample.enum_node = Normal (Some record)
      ∧ record !! "type" = Some (JString "number")
      ∧ is_Some (record !! "anyOf")
      ∧ record ≠ {[ "description" := JString "An enum" ]}.
Proof.
  split; [reflexivity|]. split; [done|]. split; [reflexivity|].
  split; [reflexivity|].
  rewrite (getAnnotations_merged Sample.parse Sample.to_number
             Sample.silent_base None Sample.enum_node None eq_refl).
  set (merged := merged_groups Sample.parse Sample.to_number None
                   Sample.enum_node None).
  assert (merged !! "type" = Some (JString "number")) as Htype.
  { subst merged. rewrite lookup_merged_groups. reflexivity. }
  assert (is_Some (merged !! "anyOf")) as HanyOf.
  { subst merged. rewrite lookup_merged_groups. by eexists. }
  destruct (size merged =? 0)%nat eqn:E.
  { apply RecordFacts.size_eqb_0 in E. rewrite E, lookup_empty in Htype.
    discriminate Htype. }
  exists merged. split; [reflexivity|]. split; [exact Htype|].
  split; [exact HanyOf|].
  intros H. rewrite H, lookup_singleton_ne in Htype by done.
  discriminate Htype.
Qed.

(** C3 at a constant enum merged with a namespace: the symbol of the
    documented enum with the members [A = 1] and [B = 2] carries the
    [ConstEnum] flag next to [NamespaceModule]; the code compares the whole
    flag word with [ConstEnum], skips both enum branches, and returns the
    description alone, where the claim has type "number", [anyOf] and
    title. *)
Lemma merged_const_enum_gets_description_only :
  symbolAtNode SampleMore.merged_enum_node = Some SampleMore.merged_enum_symbol
  ∧ has_flag ConstEnum SampleMore.merged_enum_symbol = true
  ∧ getDocumentationComment SampleMore.merged_enum_symbol ≠ []
  ∧ (getDeclarations SampleMore.merged_enum_symbol ≫= at_first)
    = Some (mkNode None "const enum E { A = 1, B = 2 }" Sample.enum_children)
  ∧ getAnnotations Sample.parse Sample.to_number Sample.silent_base None
      SampleMore.merged_enum_node
    = Normal (Some {[ "description" := JString "An enum" ]})
  ∧ ({[ "description" := JString "An enum" ]} : Annotations) !! "type" = None
  ∧ ({[ "description" := JString "An enum" ]} : Annotations) !! "anyOf" = None
  ∧ ({[ "description" := JString "An enum" ]} : Annotations) !! "title" = None.
Proof.
  split; [reflexivity|]. split; [reflexivity|]. split; [done|].
  split; [reflexivity|]. split; [vm_compute; reflexivity|].
  repeat split; reflexivity.
Qed.

(** C4 as stated fails: a newline before a heading marker, and a newline
    after a hyphen, are adjacent to a marker and would stay; the code
    turns both into a space. *)
Lemma newline_beside_a_marker_is_collapsed :
  field (getDescriptionAnnotation Sample.to_number None SampleMore.heading_node)
    "description" = Some (JString "Intro # Heading")
  ∧ Wording.stated_description [SampleMore.heading_text]
    = "Intro" ++ Sample.nl ++ "# Heading"
  ∧ field (getDescriptionAnnotation Sample.to_number None SampleMore.heading_node)
      "description"
    ≠ Some (JString (Wording.stated_description [SampleMore.heading_text]))
  ∧ field (getDescriptionAnnotation Sample.to_number None SampleMore.dash_node)
      "description" = Some (JString "from - to")
  ∧ Wording.stated_description [SampleMore.dash_text]
    = "from -" ++ Sample.nl ++ "to"
  ∧ field (getDescriptionAnnotation Sample.to_number None SampleMore.dash_node)
      "description"
    ≠ Some (JString (Wording.stated_description [SampleMore.dash_text])).
Proof.
  split; [reflexivity|]. split; [reflexivity|]. split; [by vm_compute|].
  split; [reflexivity|]. split; [reflexivity|]. by vm_compute.
Qed.

(** ** Further facts about strings *)

Module TextFacts.
Import JSString Collapse Text JSStringFacts.

Lemma append_empty_l (s : string) : "" ++ s = s.
Proof. reflexivity. Qed.

Lemma split_from_no_occurrence (sep s cur : string) :
  occurs sep s = false → split_from sep 0 cur s = [cur ++ s].
Proof.
  revert cur; induction s as [|c rest IH]; intros cur; cbn [occurs split_from].
  - intros _. by rewrite append_empty_r.
  - intros [Hstart Hrest]%orb_false_elim.
    rewrite Hstart, (IH _ Hrest), append_assoc. done.
Qed.

Lemma last_cons_nonempty {A} (x : A) (l : list A) :
  l ≠ [] → last (x :: l) = last l.
Proof. by destruct l. Qed.

(** The last segment of a split on "= " is what follows the last "= ". *)
Lemma split_last_segment (rhs : string) :
  occurs "= " rhs = false →
  ∀ (n : nat) (lhs cur : string),
    (String.length lhs ≤ n)%nat →
    at_last (split_from "= " 0 cur (lhs ++ "= " ++ rhs)) = Some rhs.
Proof.
  intros Hrhs. unfold at_last.
  assert (Hbase : ∀ cur, last (split_from "= " 0 cur ("= " ++ rhs)) = Some rhs).
  { intros cur. rewrite !append_String, append_empty_l.
    cbn [split_from starts_with String.length]. simpl Ascii.eqb. simpl.
    by rewrite (split_from_no_occurrence _ _ _ Hrhs). }
  induction n as [|n IH]; intros lhs cur Hlen.
  - destruct lhs; [|simpl in Hlen; lia]. rewrite append_empty_l. apply Hbase.
  - destruct lhs as [|c lhs]; [rewrite append_empty_l; apply Hbase|].
    rewrite append_String. cbn [split_from].
    destruct (starts_with "= " (String c (lhs ++ "= " ++ rhs))) eqn:E.
    + rewrite last_cons_nonempty by apply split_from_nonempty.
      destruct lhs as [|d lhs].
      { rewrite append_empty_l, !append_String in E. simpl in E.
        rewrite andb_false_r in E. discriminate E. }
      rewrite append_String. cbn [String.length Nat.sub split_from].
      apply IH. simpl in Hlen. lia.
    + apply IH. simpl in Hlen. lia.
Qed.

Lemma contains_replace_cr (s : string) : contains CR (replace_cr s) = false.
Proof.
  induction s as [|c s IH]; simpl; [done|].
  destruct (Ascii.eqb c CR) eqn:E; [done|]. simpl. by rewrite E.
Qed.

Lemma replace_cr_without_cr (s : string) :
  contains CR s = false → replace_cr s = s.
Proof.
  induction s as [|c s IH]; simpl; [done|].
  intros [-> Hs]%orb_false_elim. by rewrite IH.
Qed.

Lemma contains_trimStart (c : ascii) (s : string) :
  contains c s = false → contains c (trimStart s) = false.
Proof.
  induction s as [|a s IH]; simpl; [done|].
  intros [Ha Hs]%orb_false_elim.
  destruct (is_white_space a); [by apply IH|]. simpl. by rewrite Ha, Hs.
Qed.

Lemma contains_trimEnd (c : ascii) (s : string) :
  contains c s = false → contains c (trimEnd s) = false.
Proof.
  induction s as [|a s IH]; simpl; [done|].
  intros [Ha Hs]%orb_false_elim. specialize (IH Hs).
  destruct (trimEnd s) as [|b kept].
  - destruct (is_white_space a); simpl; [done|]. by rewrite Ha.
  - simpl in *. by rewrite Ha, IH.
Qed.

Lemma contains_map_index (c : ascii) (f : nat → ascii → ascii) (k : nat) (s : string) :
  (∀ i a, Ascii.eqb a c = false → Ascii.eqb (f i a) c = false) →
  contains c s = false → contains c (map_index f k s) = false.
Proof.
  intros Hf. revert k; induction s as [|a s IH]; intros k; simpl; [done|].
  intros [Ha Hs]%orb_false_elim. by rewrite Hf, IH.
Qed.

Lemma contains_cr_collapse (s : string) :
  contains CR s = false → contains CR (collapse s) = false.
Proof.
  apply contains_map_index. intros i a Ha. by destruct (soft_break s i).
Qed.

Lemma length_map_index (f : nat → ascii → ascii) (k : nat) (s : string) :
  String.length (map_index f k s) = String.length s.
Proof. revert k; induction s as [|a s IH]; intros k; simpl; [done|by rewrite IH]. Qed.

Lemma line_feed_at_collapse (s : string) (i : nat) :
  line_feed_at (collapse s) i = line_feed_at s i && negb (soft_break s i).
Proof.
  unfold line_feed_at at 1 2. rewrite get_collapse.
  destruct (String.get i s) as [c|] eqn:E; simpl; [|done].
  destruct (soft_break s i) eqn:Eb; [|by rewrite andb_true_r].
  by rewrite andb_false_r.
Qed.

Lemma marker_at_collapse (s : string) (i : nat) :
  marker_at (collapse s) i = marker_at s i.
Proof.
  unfold marker_at. rewrite get_collapse.
  destruct (String.get i s) as [c|] eqn:E; simpl; [|done].
  destruct (soft_break s i) eqn:Eb; [|done].
  unfold soft_break, line_feed_at in Eb. rewrite E in Eb.
  destruct (Ascii.eqb c LF) eqn:Ec; [|done].
  apply Ascii.eqb_eq in Ec as ->. reflexivity.
Qed.

(** Once collapsed, a text has no soft break left. *)
Lemma soft_break_collapse (s : string) (i : nat) :
  soft_break (collapse s) i = true → soft_break s i = true.
Proof.
  unfold soft_break at 1. rewrite !line_feed_at_collapse, marker_at_collapse.
  destruct (soft_break s i) eqn:Eb; [done|]. rewrite andb_true_r.
  unfold soft_break in Eb.
  destruct (line_feed_at s i) eqn:E0; [|done]. simpl in *.
  assert (Hnext : soft_break s (S i) = false).
  { unfold soft_break. simpl. by rewrite E0, andb_false_r. }
  rewrite Hnext, andb_true_r.
  destruct i as [|j]; simpl in *.
  - destruct (line_feed_at s 1), (marker_at s 1); done.
  - rewrite line_feed_at_collapse.
    assert (Hprev : line_feed_at s j = true → soft_break s j = false).
    { intros H. unfold soft_break. by rewrite H, E0, !andb_false_r. }
    destruct (line_feed_at s j) eqn:Ej.
    + by rewrite (Hprev eq_refl).
    + simpl in *. destruct (line_feed_at s (S (S j))), (marker_at s (S (S j))); done.
Qed.

Lemma collapse_idempotent (s : string) : collapse (collapse s) = collapse s.
Proof.
  apply String.get_correct. intros i. rewrite (get_collapse (collapse s)).
  destruct (String.get i (collapse s)) as [c|] eqn:E; simpl; [|done].
  destruct (soft_break (collapse s) i) eqn:Eb; [|done].
  apply soft_break_collapse in Eb. rewrite get_collapse in E.
  destruct (String.get i s); simpl in E; [|done].
  rewrite Eb in E. done.
Qed.

End TextFacts.

(** ** Further properties of the reader *)

Section FurtherProperties.

Variable json5_parse : string → Completion JSValue.
Variable Number_ : string → number.
Variable super_getAnnotations : Node → Completion (option Annotations).
Variable markdownDescription : option bool.

Local Abbreviation the_getAnnotations :=
  (getAnnotations json5_parse Number_ super_getAnnotations markdownDescription).
Local Abbreviation the_getDescriptionAnnotation :=
  (getDescriptionAnnotation Number_ markdownDescription).

Lemma fold_push_member_omap (children : list Node) (anyOf : list JSValue) :
  fold_left (push_member Number_) children anyOf
  = (anyOf ++ omap (member_descriptor Number_) children)%list.
Proof.
  revert anyOf; induction children as [|child rest IH]; intros anyOf; simpl.
  - by rewrite app_nil_r.
  - rewrite IH. unfold push_member, member_descriptor.
    destruct (symbolAtNode child); [|done].
    by rewrite <- app_assoc.
Qed.

Lemma field_description (node : Node) (symbol : Symbol) :
  symbolAtNode node = Some symbol →
  getDocumentationComment symbol ≠ [] →
  field (the_getDescriptionAnnotation node) "description"
  = Some (JString (spec_description (getDocumentationComment symbol))).
Proof.
  intros Hsym Hdoc.
  rewrite (getDescriptionAnnotation_eq _ _ _ _ Hsym Hdoc). cbv zeta.
  destruct (0 <? _)%nat, (truthy markdownDescription); unfold field; simpl;
    rewrite ?lookup_insert_ne by done; by rewrite lookup_singleton_eq.
Qed.

Lemma field_description_inv (node : Node) (d : string) :
  field (the_getDescriptionAnnotation node) "description" = Some (JString d) →
  ∃ symbol,
    symbolAtNode node = Some symbol
    ∧ getDocumentationComment symbol ≠ []
    ∧ d = spec_description (getDocumentationComment symbol).
Proof.
  intros H. destruct (symbolAtNode node) as [symbol|] eqn:Hsym.
  - destruct (getDocumentationComment symbol) as [|c cs] eqn:Hdoc.
    + by rewrite (getDescriptionAnnotation_no_comment _ _ _ _ Hsym Hdoc) in H.
    + assert (getDocumentationComment symbol ≠ []) as Hne by by rewrite Hdoc.
      rewrite (field_description node symbol Hsym Hne) in H.
      exists symbol. split; [done|]. split; [done|congruence].
  - unfold getDescriptionAnnotation in H. by rewrite Hsym in H.
Qed.

Lemma spec_description_normalised (comments : list SymbolDisplayPart) :
  Collapse.trimmed (spec_description comments)
  ∧ Text.contains JSString.CR (spec_description comments) = false.
Proof.
  unfold spec_description. split.
  - apply JSStringFacts.trimmed_collapse, JSStringFacts.trimmed_trim.
  - apply TextFacts.contains_cr_collapse, TextFacts.contains_trimEnd,
      TextFacts.contains_trimStart, TextFacts.contains_replace_cr.
Qed.

Lemma parsed_examples_app (tags1 tags2 : list JSDocTagInfo) :
  parsed_examples json5_parse (tags1 ++ tags2)
  = (parsed_examples json5_parse tags1 ++ parsed_examples json5_parse tags2)%list.
Proof.
  induction tags1 as [|tag rest IH]; simpl; [done|].
  destruct (String.eqb (name tag) "example"); [|done].
  destruct (json5_parse (Wording.body_text tag)); simpl; by rewrite IH.
Qed.

Lemma length_parsed_examples (jsDocTags : list JSDocTagInfo) :
  (length (parsed_examples json5_parse jsDocTags)
   ≤ count_tags "example" jsDocTags)%nat.
Proof.
  unfold count_tags. induction jsDocTags as [|tag rest IH]; simpl; [done|].
  rewrite filter_cons. destruct (String.eqb_spec (name tag) "example") as [E|E].
  - rewrite decide_True by done.
    destruct (json5_parse (Wording.body_text tag)); simpl; lia.
  - by rewrite decide_False.
Qed.

Lemma find_tag_insert (tag_name : string) (before after : list JSDocTagInfo)
    (tag : JSDocTagInfo) :
  name tag ≠ tag_name →
  find_tag tag_name (before ++ tag :: after) = find_tag tag_name (before ++ after).
Proof.
  intros Hname. unfold find_tag.
  induction before as [|t rest IH]; simpl.
  - by apply String.eqb_neq in Hname as ->.
  - by rewrite IH.
Qed.

Lemma isNullable_eq (node : Node) (symbol : Symbol) :
  symbolAtNode node = Some symbol →
  isNullable node
  = match find_tag "nullable" (getJsDocTags symbol) with
    | Some _ => true
    | None => false
    end.
Proof.
  intros Hsym. unfold isNullable. rewrite Hsym.
  by destruct (getJsDocTags symbol).
Qed.

(** X1: the [anyOf] of a constant enum with a documentation comment has
    one descriptor for each child of the first declaration that resolves
    to a symbol, in the order of the children; the children without symbol
    and every later declaration of the symbol add nothing, and with no
    descriptor there is no [anyOf] field. *)
Theorem anyOf_follows_first_declaration
    (node declaration : Node) (others : list Node) (symbol : Symbol) :
  symbolAtNode node = Some symbol →
  getDocumentationComment symbol ≠ [] →
  getFlags symbol = ConstEnum →
  getDeclarations symbol = Some (declaration :: others) →
  field (the_getDescriptionAnnotation node) "anyOf"
  = match omap (member_descriptor Number_) (forEachChild declaration) with
    | [] => None
    | members => Some (JArray members)
    end.
Proof.
  intros Hsym Hdoc Hflags Hdecl.
  rewrite (getDescriptionAnnotation_eq _ _ _ _ Hsym Hdoc). cbv zeta.
  assert (collect_members Number_ symbol
          = omap (member_descriptor Number_) (forEachChild declaration)) as ->.
  { unfold collect_members. rewrite Hflags, Hdecl. simpl.
    by rewrite fold_push_member_omap. }
  destruct (omap _ _) as [|m ms]; simpl.
  - unfold field. destruct (truthy markdownDescription); simpl;
      rewrite ?lookup_insert_ne by done; by rewrite lookup_singleton_ne.
  - unfold field. simpl.
    by rewrite lookup_insert_ne, lookup_insert_eq by done.
Qed.

(** X2: the [const] of an enum member is [Number] of what follows the
    last "= " of its source text, and [Number] of the whole text when the
    text has no "= ". *)
Theorem member_const_follows_last_separator
    (anyOf : list JSValue) (child : Node) (symbol : Symbol) (lhs rhs : string) :
  symbolAtNode child = Some symbol →
  (getText child = lhs ++ "= " ++ rhs ∨ getText child = rhs) →
  Text.occurs "= " rhs = false →
  push_member Number_ anyOf child
  = (anyOf ++
     [JObject {[ "const" := JNumber (Number_ rhs);
                 "description" :=
                   JString (comment_text (getDocumentationComment symbol)) ]}])%list.
Proof.
  intros Hsym Htext Hrhs. unfold push_member. rewrite Hsym.
  assert (at_last (JSString.split "= " (getText child)) = Some rhs) as ->.
  { unfold JSString.split. destruct Htext as [-> | ->].
    - by apply (TextFacts.split_last_segment rhs Hrhs (String.length lhs)).
    - by rewrite (TextFacts.split_from_no_occurrence _ _ _ Hrhs). }
  reflexivity.
Qed.

(** X3: a symbol whose flags are exactly [ConstEnum] and that has no
    documentation comment of its own gets no description group at all,
    however its members are documented;
    [getAnnotations] still returns a record, with type "number" and with
    neither [anyOf] nor description unless the base reader sets them. *)
Theorem const_enum_without_comment
    (node : Node) (symbol : Symbol) (base : option Annotations) :
  symbolAtNode node = Some symbol →
  getFlags symbol = ConstEnum →
  getDocumentationComment symbol = [] →
  super_getAnnotations node = Normal base →
  the_getDescriptionAnnotation node = None
  ∧ ∃ record,
      the_getAnnotations node = Normal (Some record)
      ∧ (field base "type" = None → record !! "type" = Some (JString "number"))
      ∧ (field base "anyOf" = None → record !! "anyOf" = None)
      ∧ (field base "description" = None → record !! "description" = None).
Proof.
  intros Hsym Hflags Hdoc Hbase.
  pose proof (getDescriptionAnnotation_no_comment Number_ markdownDescription
                node symbol Hsym Hdoc) as Hd.
  split; [done|].
  pose proof (getTypeAnnotation_eq node symbol Hsym) as Ht.
  rewrite Hflags in Ht. simpl in Ht.
  rewrite (getAnnotations_merged _ _ _ _ _ _ Hbase).
  set (merged := merged_groups json5_parse Number_ markdownDescription node base).
  assert (Hlookup : ∀ key, key ≠ "examples" → field base key = None →
    merged !! key = field (getTypeAnnotation node) key).
  { intros key Hkey Hb. subst merged.
    rewrite lookup_merged_groups, Hb, field_spec_examples_ne, Hd by done.
    simpl. by destruct (field (getTypeAnnotation node) key). }
  assert (is_Some (merged !! "type")) as Hsome.
  { subst merged. rewrite lookup_merged_groups, field_spec_examples_ne by done.
    rewrite Ht. unfold field at 2. simpl. rewrite lookup_singleton_eq.
    destruct (field base "type"); by eexists. }
  destruct (size merged =? 0)%nat eqn:E.
  { apply RecordFacts.size_eqb_0 in E. rewrite E, lookup_empty in Hsome.
    by destruct Hsome. }
  exists merged. split; [done|].
  repeat split; intros Hb; rewrite Hlookup, Ht by done; unfold field; simpl.
  - by rewrite lookup_singleton_eq.
  - by rewrite lookup_singleton_ne.
  - by rewrite lookup_singleton_ne.
Qed.

(** X4: in the description group a title is there exactly when [anyOf]
    is, and it repeats the description; [anyOf] is an array with at least
    one descriptor, and only a symbol whose flags are [ConstEnum] has
    one. *)
Theorem title_accompanies_anyOf (node : Node) :
  (is_Some (field (the_getDescriptionAnnotation node) "title")
   ↔ is_Some (field (the_getDescriptionAnnotation node) "anyOf"))
  ∧ (is_Some (field (the_getDescriptionAnnotation node) "title") →
     field (the_getDescriptionAnnotation node) "title"
     = field (the_getDescriptionAnnotation node) "description")
  ∧ (∀ v, field (the_getDescriptionAnnotation node) "anyOf" = Some v →
       ∃ members, v = JArray members ∧ members ≠ [])
  ∧ (is_Some (field (the_getDescriptionAnnotation node) "anyOf") →
     ∃ symbol, symbolAtNode node = Some symbol ∧ getFlags symbol = ConstEnum).
Proof.
  destruct (symbolAtNode node) as [symbol|] eqn:Hsym.
  2:{ unfold getDescriptionAnnotation. rewrite Hsym. unfold field; simpl.
      repeat split; try done; by intros [? ?]. }
  destruct (getDocumentationComment symbol) as [|c cs] eqn:Hdoc.
  { rewrite (getDescriptionAnnotation_no_comment _ _ _ _ Hsym Hdoc).
    unfold field; simpl. repeat split; try done; by intros [? ?]. }
  assert (getDocumentationComment symbol ≠ []) as Hne by by rewrite Hdoc.
  rewrite (getDescriptionAnnotation_eq _ _ _ _ Hsym Hne). cbv zeta.
  match goal with
  | |- context [if truthy markdownDescription then ?a else ?b] =>
      set (data := if truthy markdownDescription then a else b)
  end.
  assert (data !! "description"
          = Some (JString (spec_description (getDocumentationComment symbol))))
    as Hdescription.
  { subst data. destruct (truthy markdownDescription);
      rewrite ?lookup_insert_ne by done; by rewrite lookup_singleton_eq. }
  assert (∀ key, key ≠ "description" → key ≠ "markdownDescription" →
            data !! key = None) as Hnone.
  { intros key H1 H2. subst data. destruct (truthy markdownDescription);
      rewrite ?lookup_insert_ne by done; by rewrite lookup_singleton_ne. }
  clearbody data.
  destruct (collect_members Number_ symbol) as [|m ms] eqn:Hmembers;
    cbn [length Nat.ltb Nat.leb]; rewrite !RecordFacts.field_Some.
  - rewrite !Hnone by done. repeat split; try done; by intros [? ?].
  - rewrite lookup_insert_eq.
    rewrite (lookup_insert_ne _ "title" "anyOf"), lookup_insert_eq by done.
    rewrite !lookup_insert_ne, Hdescription by done.
    repeat split; try done; try (by eexists).
    + intros v [= <-]. by exists (m :: ms).
    + intros _. exists symbol. split; [done|].
      unfold collect_members in Hmembers.
      by destruct (Z.eqb_spec (getFlags symbol) ConstEnum).
Qed.

(** X5: a description field never contains a carriage return and never
    starts or ends with white space. *)
Theorem description_is_trimmed_without_cr (node : Node) (d : string) :
  field (the_getDescriptionAnnotation node) "description" = Some (JString d) →
  Collapse.trimmed d ∧ Text.contains JSString.CR d = false.
Proof.
  intros (symbol & _ & _ & ->)%field_description_inv.
  apply spec_description_normalised.
Qed.

(** X6: the description is a fixed point of the reader: a documentation
    comment whose only fragment is a description the reader produced gives
    that same description again. *)
Theorem description_of_a_description
    (node node' : Node) (symbol' : Symbol) (d fragment_kind : string) :
  field (the_getDescriptionAnnotation node) "description" = Some (JString d) →
  symbolAtNode node' = Some symbol' →
  getDocumentationComment symbol' = [{| text := d; kind := fragment_kind |}] →
  field (the_getDescriptionAnnotation node') "description" = Some (JString d).
Proof.
  intros (symbol & _ & _ & Hd)%field_description_inv Hsym' Hdoc'.
  rewrite (field_description node' symbol' Hsym') by by rewrite Hdoc'.
  rewrite Hdoc'. do 2 f_equal.
  destruct (spec_description_normalised (getDocumentationComment symbol))
    as [Htrim Hcr].
  rewrite <- Hd in Htrim, Hcr.
  unfold spec_description at 1. simpl.
  rewrite (TextFacts.replace_cr_without_cr d Hcr).
  rewrite (JSStringFacts.trim_trimmed d Htrim).
  rewrite Hd. unfold spec_description. apply TextFacts.collapse_idempotent.
Qed.

(** X7: in the markdown-preserving mode the description and the
    markdownDescription have the same length, and they differ only where
    the markdownDescription has a line feed and the description a
    space. *)
Theorem description_differs_from_markdown_at_line_feeds
    (node : Node) (symbol : Symbol) :
  truthy markdownDescription = true →
  symbolAtNode node = Some symbol →
  getDocumentationComment symbol ≠ [] →
  ∃ m d,
    field (the_getDescriptionAnnotation node) "markdownDescription"
    = Some (JString m)
    ∧ field (the_getDescriptionAnnotation node) "description" = Some (JString d)
    ∧ String.length d = String.length m
    ∧ ∀ i, String.get i d = String.get i m
           ∨ (String.get i m = Some JSString.LF
              ∧ String.get i d = Some JSString.SP).
Proof.
  intros Hmode Hsym Hdoc.
  exists (comment_text (getDocumentationComment symbol)),
         (spec_description (getDocumentationComment symbol)).
  split; [|split; [by apply field_description|split]].
  - rewrite (getDescriptionAnnotation_eq _ _ _ _ Hsym Hdoc). cbv zeta.
    rewrite Hmode. destruct (0 <? _)%nat; unfold field; simpl;
      rewrite ?lookup_insert_ne by done; by rewrite lookup_insert_eq.
  - unfold spec_description, Collapse.collapse.
    apply TextFacts.length_map_index.
  - intros i. unfold spec_description. fold (comment_text (getDocumentationComment symbol)).
    rewrite JSStringFacts.get_collapse.
    set (m := comment_text (getDocumentationComment symbol)).
    destruct (String.get i m) as [c|] eqn:E; simpl; [|by left].
    destruct (Collapse.soft_break m i) eqn:Eb; [|by left].
    right. split; [|done].
    unfold Collapse.soft_break, Collapse.line_feed_at in Eb. rewrite E in Eb.
    destruct (Ascii.eqb c JSString.LF) eqn:Ec; [|done].
    by apply Ascii.eqb_eq in Ec as ->.
Qed.

(** X8: an examples field is an array with at least one value and at
    most as many values as the symbol has example tags. *)
Theorem examples_between_one_and_tag_count
    (node : Node) (group : option Annotations) (v : JSValue) :
  getExampleAnnotation json5_parse node = Normal group →
  field group "examples" = Some v →
  ∃ symbol values,
    symbolAtNode node = Some symbol
    ∧ v = JArray values
    ∧ (1 ≤ length values)%nat
    ∧ (length values ≤ count_tags "example" (getJsDocTags symbol))%nat.
Proof.
  rewrite getExampleAnnotation_spec. intros [= <-]. unfold spec_examples.
  destruct (symbolAtNode node) as [symbol|]; [|done].
  pose proof (length_parsed_examples (getJsDocTags symbol)) as Hlen.
  destruct (parsed_examples json5_parse (getJsDocTags symbol)) as [|x xs];
    [done|].
  unfold field; simpl. rewrite lookup_singleton_eq. intros [= <-].
  exists symbol, (x :: xs). repeat split; [simpl; lia|done].
Qed.

(** X9: with several [asType] tags the first one gives the type; the
    tags after it are not read. *)
Theorem first_asType_tag_wins
    (node : Node) (symbol : Symbol) (before after : list JSDocTagInfo)
    (jsDocTag : JSDocTagInfo) :
  symbolAtNode node = Some symbol →
  getFlags symbol ≠ ConstEnum →
  getJsDocTags symbol = (before ++ jsDocTag :: after)%list →
  Forall (λ t, name t ≠ "asType") before →
  name jsDocTag = "asType" →
  getTypeAnnotation node = Some {[ "type" := JString (tag_body jsDocTag) ]}.
Proof.
  intros Hsym Hflags Htags Hbefore Hname.
  rewrite (getTypeAnnotation_eq node symbol Hsym), Htags.
  destruct (Z.eqb_spec (getFlags symbol) ConstEnum); [done|].
  assert (find_tag "asType" (before ++ jsDocTag :: after) = Some jsDocTag) as ->;
    [|done].
  clear Htags. unfold find_tag.
  induction Hbefore as [|t rest Ht _ IH]; simpl.
  - by rewrite Hname.
  - apply String.eqb_neq in Ht as ->. exact IH.
Qed.

(** X10: a tag named neither asType nor example nor nullable changes
    nothing: with or without it the type group, the example group and
    [isNullable] are the same. *)
Theorem other_tags_are_ignored
    (node node' : Node) (symbol symbol' : Symbol)
    (before after : list JSDocTagInfo) (jsDocTag : JSDocTagInfo) :
  symbolAtNode node = Some symbol →
  symbolAtNode node' = Some symbol' →
  getFlags symbol = getFlags symbol' →
  getJsDocTags symbol = (before ++ after)%list →
  getJsDocTags symbol' = (before ++ jsDocTag :: after)%list →
  name jsDocTag ≠ "asType" →
  name jsDocTag ≠ "example" →
  name jsDocTag ≠ "nullable" →
  getTypeAnnotation node = getTypeAnnotation node'
  ∧ getExampleAnnotation json5_parse node = getExampleAnnotation json5_parse node'
  ∧ isNullable node = isNullable node'.
Proof.
  intros Hsym Hsym' Hflags Htags Htags' HasType Hexample Hnullable.
  repeat split.
  - rewrite (getTypeAnnotation_eq node symbol Hsym),
      (getTypeAnnotation_eq node' symbol' Hsym'), Hflags, Htags, Htags'.
    by rewrite find_tag_insert.
  - rewrite !getExampleAnnotation_spec. unfold spec_examples.
    rewrite Hsym, Hsym', Htags, Htags'.
    rewrite !parsed_examples_app. simpl.
    by apply String.eqb_neq in Hexample as ->.
  - rewrite (isNullable_eq node symbol Hsym), (isNullable_eq node' symbol' Hsym'),
      Htags, Htags'.
    by rewrite find_tag_insert.
Qed.

(** X11: [getAnnotations] throws exactly when the base reader throws, and
    it throws the value the base reader threw: no error of this reader
    reaches the caller, and none of the base reader is swallowed. *)
Theorem getAnnotations_throws_iff_base_throws (node : Node) (e : JSValue) :
  the_getAnnotations node = Throw e ↔ super_getAnnotations node = Throw e.
Proof.
  destruct (super_getAnnotations node) as [base|e'] eqn:Hbase.
  - rewrite (getAnnotations_merged _ _ _ _ _ _ Hbase).
    by destruct (size _ =? 0)%nat.
  - unfold getAnnotations. rewrite getExampleAnnotation_spec, Hbase. done.
Qed.

End FurtherProperties.

(** ** Properties of factory/program.ts *)

Module ProgramFacts.
Import ProgramFactory.

Section Factory.

Variable readFile : string → option string.
Variable parseConfigFileTextToJson : string → string → ConfigFileJson.
Variable parseJsonConfigFileContent : JSValue → string → string → ParsedCommandLine.
Variable resolve : string → string.
Variable dirname : string → string.
Variable normalize : string → string.
Variable globSync : string → list string.
Variable BuildError : JSValue → JSValue.
Variable Program : Type.
Variable ts_createProgram : list string → gmap string JSValue → Program.
Variable getPreEmitDiagnostics : Program → list JSValue.

Local Abbreviation the_loadTsConfigFile :=
  (loadTsConfigFile readFile parseConfigFileTextToJson parseJsonConfigFileContent
     resolve dirname BuildError).
Local Abbreviation the_getTsConfig :=
  (getTsConfig readFile parseConfigFileTextToJson parseJsonConfigFileContent
     resolve dirname BuildError).
Local Abbreviation the_rootNamesFromPath :=
  (rootNamesFromPath resolve normalize globSync).
Local Abbreviation the_createProgram :=
  (createProgram readFile parseConfigFileTextToJson parseJsonConfigFileContent
     resolve dirname normalize globSync BuildError Program ts_createProgram
     getPreEmitDiagnostics).

Lemma loadTsConfigFile_Normal (configFile : string) (result : ParsedCommandLine) :
  the_loadTsConfigFile configFile = Normal result →
  ∃ raw json,
    readFile configFile = Some raw
    ∧ raw ≠ ""
    ∧ truthy_value (error (parseConfigFileTextToJson configFile raw)) = false
    ∧ config (parseConfigFileTextToJson configFile raw) = Some json
    ∧ truthy_value (Some json) = true
    ∧ result =
      {| options :=
           delete "declarationMap"
             (delete "declarationDir"
                (delete "declaration"
                   (delete "outFile"
                      (delete "outDir"
                         (delete "out"
                            (<["noEmit" := JBool true]>
                               (options
                                  (parseJsonConfigFileContent json
                                     (resolve (dirname configFile))
                                     configFile))))))));
         fileNames :=
           fileNames
             (parseJsonConfigFileContent json (resolve (dirname configFile))
                configFile) |}.
Proof.
  unfold loadTsConfigFile.
  destruct (readFile configFile) as [[|c raw]|] eqn:Hraw; simpl; try done.
  destruct (truthy_value (error _)) eqn:Herr; [done|].
  destruct (config _) as [json|] eqn:Hcfg; simpl; [|done].
  destruct (truthy_value (Some json)) eqn:Hjson; simpl; [|done].
  intros [= <-]. exists (String c raw), json. by rewrite Hcfg.
Qed.

Local Abbreviation cleaned opts :=
  (delete "declarationMap"
     (delete "declarationDir"
        (delete "declaration"
           (delete "outFile"
              (delete "outDir"
                 (delete "out" (<["noEmit" := JBool true]> opts))))))).

Lemma lookup_cleaned_noEmit (opts : gmap string JSValue) :
  cleaned opts !! "noEmit" = Some (JBool true).
Proof. rewrite !lookup_delete_ne by done. apply lookup_insert_eq. Qed.

Lemma lookup_cleaned_emit (opts : gmap string JSValue) (key : string) :
  key ∈ emit_options → cleaned opts !! key = None.
Proof.
  unfold emit_options. rewrite !elem_of_cons, elem_of_nil.
  intros [->|[->|[->|[->|[->|[->|[]]]]]]];
    repeat first [ apply lookup_delete_eq | rewrite lookup_delete_ne by done ].
Qed.

Lemma lookup_cleaned_other (opts : gmap string JSValue) (key : string) :
  key ≠ "noEmit" → key ∉ emit_options → cleaned opts !! key = opts !! key.
Proof.
  unfold emit_options. rewrite !not_elem_of_cons. intros Hne (?&?&?&?&?&?&_).
  rewrite !lookup_delete_ne by done. by rewrite lookup_insert_ne.
Qed.

Lemma getTsConfig_never_emits (config : Config) (result : ParsedCommandLine) :
  the_getTsConfig config = Normal result →
  options result !! "noEmit" = Some (JBool true)
  ∧ ∀ key, key ∈ emit_options → options result !! key = None.
Proof.
  unfold getTsConfig. destruct (truthy_string (tsconfig config)).
  - intros (raw & json & _ & _ & _ & _ & _ & ->)%loadTsConfigFile_Normal. simpl.
    split; [apply lookup_cleaned_noEmit|]. intros key. apply lookup_cleaned_emit.
  - intros [= <-]. simpl. split; [reflexivity|].
    intros key. unfold emit_options. rewrite !elem_of_cons, elem_of_nil.
    intros [->|[->|[->|[->|[->|[->|[]]]]]]]; reflexivity.
Qed.

(** X12: [loadTsConfigFile] returns exactly when the file can be read and
    is not empty, the text parses to JSON without an error, and the parsed
    value is truthy; a file that is missing or empty is reported as one
    that cannot be read. *)
Theorem loadTsConfigFile_returns_iff (configFile : string) :
  ((∃ result, the_loadTsConfigFile configFile = Normal result)
   ↔ ∃ raw json,
       readFile configFile = Some raw
       ∧ raw ≠ ""
       ∧ truthy_value (error (parseConfigFileTextToJson configFile raw)) = false
       ∧ config (parseConfigFileTextToJson configFile raw) = Some json
       ∧ truthy_value (Some json) = true)
  ∧ (readFile configFile = None ∨ readFile configFile = Some "" →
     the_loadTsConfigFile configFile = Throw (cannot_read BuildError configFile)).
Proof.
  split; [split|].
  - intros [result (raw & json & ? & ? & ? & ? & ? & _)%loadTsConfigFile_Normal].
    by exists raw, json.
  - intros (raw & json & Hraw & Hne & Herr & Hcfg & Hjson).
    unfold loadTsConfigFile. rewrite Hraw.
    destruct raw as [|c raw]; [done|]. simpl.
    rewrite Herr, Hcfg, Hjson. simpl. by eexists.
  - unfold loadTsConfigFile. by intros [-> | ->].
Qed.

(** X13: the command line [loadTsConfigFile] returns has [noEmit] set to
    true and none of the options [out], [outDir], [outFile],
    [declaration], [declarationDir] and [declarationMap]; every other
    option and the file names are those the compiler parsed from the
    file. *)
Theorem loadTsConfigFile_never_emits
    (configFile : string) (result : ParsedCommandLine) :
  the_loadTsConfigFile configFile = Normal result →
  ∃ raw json,
    readFile configFile = Some raw
    ∧ config (parseConfigFileTextToJson configFile raw) = Some json
    ∧ fileNames result
      = fileNames (parseJsonConfigFileContent json (resolve (dirname configFile))
                     configFile)
    ∧ options result !! "noEmit" = Some (JBool true)
    ∧ (∀ key, key ∈ emit_options → options result !! key = None)
    ∧ (∀ key, key ≠ "noEmit" → key ∉ emit_options →
         options result !! key
         = options (parseJsonConfigFileContent json (resolve (dirname configFile))
                      configFile) !! key).
Proof.
  intros (raw & json & Hraw & _ & _ & Hcfg & _ & ->)%loadTsConfigFile_Normal.
  exists raw, json. simpl. repeat split; try done.
  - apply lookup_cleaned_noEmit.
  - intros key. apply lookup_cleaned_emit.
  - intros key. apply lookup_cleaned_other.
Qed.

Lemma createProgram_eq (config : Config) (tsconfig : ParsedCommandLine) :
  the_getTsConfig config = Normal tsconfig →
  the_createProgram config =
  let rootNames :=
    match the_rootNamesFromPath config with
    | [] => fileNames tsconfig
    | names => names
    end in
  match rootNames with
  | [] => Throw (no_input_files BuildError)
  | _ =>
      let program := ts_createProgram rootNames (options tsconfig) in
      if truthy (skipTypeCheck config) then Normal program
      else match getPreEmitDiagnostics program with
           | [] => Normal program
           | diagnostics => Throw (type_check_error BuildError diagnostics)
           end
  end.
Proof.
  intros Hts. unfold createProgram. rewrite Hts. simpl.
  destruct (the_rootNamesFromPath config) as [|r rs]; simpl.
  - destruct (fileNames tsconfig) as [|f fs]; simpl; [done|].
    destruct (truthy (skipTypeCheck config)); simpl; [done|].
    by destruct (getPreEmitDiagnostics _).
  - destruct (truthy (skipTypeCheck config)); simpl; [done|].
    by destruct (getPreEmitDiagnostics _).
Qed.

(** X14: every program [createProgram] returns was created from at least
    one root name, with [noEmit] set to true and with none of the options
    that make the compiler write files; the root names are the normalized
    matches of the path when there are any, the file names of the tsconfig
    otherwise; and unless the type check is skipped the program has no
    diagnostic. *)
Theorem createProgram_creates_without_emit (config : Config) (program : Program) :
  the_createProgram config = Normal program →
  ∃ tsconfig rootNames,
    the_getTsConfig config = Normal tsconfig
    ∧ program = ts_createProgram rootNames (options tsconfig)
    ∧ rootNames ≠ []
    ∧ rootNames = match the_rootNamesFromPath config with
                  | [] => fileNames tsconfig
                  | names => names
                  end
    ∧ options tsconfig !! "noEmit" = Some (JBool true)
    ∧ (∀ key, key ∈ emit_options → options tsconfig !! key = None)
    ∧ (truthy (skipTypeCheck config) = false →
       getPreEmitDiagnostics program = []).
Proof.
  destruct (the_getTsConfig config) as [tsconfig|e] eqn:Hts.
  2:{ unfold createProgram. by rewrite Hts. }
  rewrite (createProgram_eq config tsconfig Hts). cbv zeta.
  destruct (getTsConfig_never_emits config tsconfig Hts) as [HnoEmit Hemit].
  set (rootNames := match the_rootNamesFromPath config with
                    | [] => fileNames tsconfig
                    | names => names
                    end).
  destruct rootNames as [|r rs] eqn:Hroots; [done|].
  destruct (truthy (skipTypeCheck config)) eqn:Hskip.
  - intros [= <-]. exists tsconfig, (r :: rs). repeat split; done.
  - destruct (getPreEmitDiagnostics _) eqn:Hdiag; [|done].
    intros [= <-]. exists tsconfig, (r :: rs). repeat split; done.
Qed.

(** X15: when the path matches no file and the tsconfig names none,
    [createProgram] throws the error "No input files", whether the type
    check is skipped or not; a config with neither a path nor a tsconfig
    always ends this way. *)
Theorem createProgram_without_input_files (config : Config) :
  (∀ tsconfig,
     the_getTsConfig config = Normal tsconfig →
     the_rootNamesFromPath config = [] →
     fileNames tsconfig = [] →
     the_createProgram config = Throw (no_input_files BuildError))
  ∧ (truthy_string (path config) = false →
     truthy_string (tsconfig config) = false →
     the_createProgram config = Throw (no_input_files BuildError)).
Proof.
  split.
  - intros tsconfig Hts Hpath Hnames.
    by rewrite (createProgram_eq config tsconfig Hts), Hpath, Hnames.
  - intros Hpath Hts.
    assert (the_getTsConfig config
            = Normal {| options := default_options; fileNames := [] |}) as H.
    { unfold getTsConfig. by rewrite Hts. }
    rewrite (createProgram_eq config _ H). unfold rootNamesFromPath.
    by rewrite Hpath.
Qed.

(** X16: with the type check on and at least one root name,
    [createProgram] returns the program exactly when the compiler reports
    no diagnostic for it; otherwise it throws the error "Type check
    error" with all the diagnostics, in the compiler's order, as related
    information. *)
Theorem createProgram_type_check
    (config : Config) (tsconfig : ParsedCommandLine) (rootNames : list string) :
  the_getTsConfig config = Normal tsconfig →
  rootNames = match the_rootNamesFromPath config with
              | [] => fileNames tsconfig
              | names => names
              end →
  rootNames ≠ [] →
  truthy (skipTypeCheck config) = false →
  let program := ts_createProgram rootNames (options tsconfig) in
  (the_createProgram config = Normal program
   ↔ getPreEmitDiagnostics program = [])
  ∧ (getPreEmitDiagnostics program ≠ [] →
     the_createProgram config
     = Throw (type_check_error BuildError (getPreEmitDiagnostics program))).
Proof.
  intros Hts Hroots Hne Hskip program.
  rewrite (createProgram_eq config tsconfig Hts). cbv zeta.
  rewrite <- Hroots, Hskip. fold program.
  destruct rootNames as [|r rs]; [done|].
  destruct (getPreEmitDiagnostics program) as [|d ds]; split; done.
Qed.

End Factory.

Section SkipTypeCheck.

Variable readFile : string → option string.
Variable parseConfigFileTextToJson : string → string → ConfigFileJson.
Variable parseJsonConfigFileContent : JSValue → string → string → ParsedCommandLine.
Variable resolve : string → string.
Variable dirname : string → string.
Variable normalize : string → string.
Variable globSync : string → list string.
Variable BuildError : JSValue → JSValue.
Variable Program : Type.
Variable ts_createProgram : list string → gmap string JSValue → Program.

(** X17: when the type check is skipped the diagnostics play no part:
    whatever the compiler would report, [createProgram] ends the same
    way. *)
Theorem createProgram_skips_type_check
    (diagnostics diagnostics' : Program → list JSValue) (config : Config) :
  truthy (skipTypeCheck config) = true →
  createProgram readFile parseConfigFileTextToJson parseJsonConfigFileContent
    resolve dirname normalize globSync BuildError Program ts_createProgram
    diagnostics config
  = createProgram readFile parseConfigFileTextToJson parseJsonConfigFileContent
      resolve dirname normalize globSync BuildError Program ts_createProgram
      diagnostics' config.
Proof.
  intros Hskip. unfold createProgram.
  destruct (getTsConfig _ _ _ _ _ _ config) as [tsconfig|e]; simpl; [|done].
  destruct (length _ =? 0)%nat; [done|]. by rewrite Hskip.
Qed.

(** X18: the file names of the tsconfig count only when the path matches
    no file: as soon as the path matches one, two compilers that parse the
    same options from the config file give the same outcome, whatever file
    names they find there. *)
Theorem createProgram_path_takes_precedence
    (parse parse' : JSValue → string → string → ParsedCommandLine)
    (getPreEmitDiagnostics : Program → list JSValue) (config : Config) :
  (∀ json basePath file,
     options (parse json basePath file) = options (parse' json basePath file)) →
  rootNamesFromPath resolve normalize globSync config ≠ [] →
  createProgram readFile parseConfigFileTextToJson parse
    resolve dirname normalize globSync BuildError Program ts_createProgram
    getPreEmitDiagnostics config
  = createProgram readFile parseConfigFileTextToJson parse'
      resolve dirname normalize globSync BuildError Program ts_createProgram
      getPreEmitDiagnostics config.
Proof.
  intros Hoptions Hpath. unfold createProgram, getTsConfig, loadTsConfigFile.
  destruct (rootNamesFromPath resolve normalize globSync config) as [|r rs];
    [done|].
  destruct (truthy_string (tsconfig config)); [|done].
  destruct (truthy_string (readFile _)); simpl; [|done].
  destruct (truthy_value (error _)); [done|].
  destruct (truthy_value (ProgramFactory.config _)); simpl; [|done].
  by rewrite Hoptions.
Qed.

End SkipTypeCheck.

Section Failures.

Variable readFile : string → option string.
Variable parseConfigFileTextToJson : string → string → ConfigFileJson.
Variable parseJsonConfigFileContent : JSValue → string → string → ParsedCommandLine.
Variable resolve : string → string.
Variable dirname : string → string.
Variable normalize : string → string.
Variable globSync : string → list string.
Variable BuildError : JSValue → JSValue.
Variable Program : Type.
Variable ts_createProgram : list string → gmap string JSValue → Program.
Variable getPreEmitDiagnostics : Program → list JSValue.

(** X19: [createProgram] fails for one of three reasons only: the
    tsconfig could not be loaded, and the error is that of the loading,
    even when the path matches files; or there is no input file; or the
    type check, not skipped, reports diagnostics. *)
Theorem createProgram_failure_causes (config : Config) (e : JSValue) :
  createProgram readFile parseConfigFileTextToJson parseJsonConfigFileContent
    resolve dirname normalize globSync BuildError Program ts_createProgram
    getPreEmitDiagnostics config = Throw e →
  getTsConfig readFile parseConfigFileTextToJson parseJsonConfigFileContent
    resolve dirname BuildError config = Throw e
  ∨ (∃ tsconfig,
       getTsConfig readFile parseConfigFileTextToJson parseJsonConfigFileContent
         resolve dirname BuildError config = Normal tsconfig
       ∧ ((e = no_input_files BuildError
           ∧ rootNamesFromPath resolve normalize globSync config = []
           ∧ fileNames tsconfig = [])
          ∨ (∃ diagnostics,
               e = type_check_error BuildError diagnostics
               ∧ diagnostics ≠ []
               ∧ truthy (skipTypeCheck config) = false))).
Proof.
  destruct (getTsConfig readFile parseConfigFileTextToJson
              parseJsonConfigFileContent resolve dirname BuildError config)
    as [tsconfig|e'] eqn:Hts.
  2:{ unfold createProgram. rewrite Hts. simpl. intros [= <-]. by left. }
  rewrite (createProgram_eq _ _ _ _ _ _ _ _ _ _ _ config tsconfig Hts). cbv zeta.
  intros H. right. exists tsconfig. split; [done|].
  destruct (rootNamesFromPath resolve normalize globSync config) as [|r rs].
  - destruct (fileNames tsconfig) as [|f fs].
    + injection H as <-. by left.
    + destruct (truthy (skipTypeCheck config)); [done|].
      destruct (getPreEmitDiagnostics _) as [|d ds]; [done|].
      injection H as <-. right. by exists (d :: ds).
  - destruct (truthy (skipTypeCheck config)); [done|].
    destruct (getPreEmitDiagnostics _) as [|d ds]; [done|].
    injection H as <-. right. by exists (d :: ds).
Qed.

End Failures.

End ProgramFacts.

(** ** The further properties at the sample inputs *)

Lemma anyOf_follows_first_declaration_witness :
  getFlags Sample.enum_symbol = ConstEnum
  ∧ field (getDescriptionAnnotation Sample.to_number None Sample.enum_node) "anyOf"
    = Some (JArray
              [JObject {[ "const" := JNumber (number_of_Z 1);
                          "description" := JString "first" ]};
               JObject {[ "const" := JNumber (number_of_Z 2);
                          "description" := JString "second" ]}]).
Proof.
  split; [reflexivity|].
  rewrite (anyOf_follows_first_declaration Sample.to_number None Sample.enum_node
             (mkNode None "const enum E { A = 1, B = 2 }" Sample.enum_children)
             [] Sample.enum_symbol eq_refl); [reflexivity|done|reflexivity..].
Defined.

Lemma member_const_follows_last_separator_witness :
  getText Sample.member_A = "A " ++ "= " ++ "1"
  ∧ Text.occurs "= " "1" = false
  ∧ push_member Sample.to_number [] Sample.member_A
    = [JObject {[ "const" := JNumber (number_of_Z 1);
                  "description" := JString "first" ]}].
Proof.
  split; [reflexivity|]. split; [reflexivity|].
  rewrite (member_const_follows_last_separator Sample.to_number []
             Sample.member_A _ "A " "1" eq_refl); [reflexivity|by left|reflexivity].
Defined.

Lemma const_enum_without_comment_witness :
  getDocumentationComment SampleMore.undocumented_enum_symbol = []
  ∧ getDescriptionAnnotation Sample.to_number None SampleMore.undocumented_enum_node
    = None
  ∧ ∃ record,
      getAnnotations Sample.parse Sample.to_number Sample.silent_base None
        SampleMore.undocumented_enum_node = Normal (Some record)
      ∧ record !! "type" = Some (JString "number")
      ∧ record !! "anyOf" = None.
Proof.
  split; [reflexivity|].
  destruct (const_enum_without_comment Sample.parse Sample.to_number
              Sample.silent_base None SampleMore.undocumented_enum_node
              SampleMore.undocumented_enum_symbol None eq_refl eq_refl eq_refl
              eq_refl)
    as (Hd & record & Hres & Htype & HanyOf & _).
  split; [exact Hd|]. exists record.
  split; [exact Hres|]. split; [by apply Htype|by apply HanyOf].
Defined.

Lemma title_accompanies_anyOf_witness :
  is_Some (field (getDescriptionAnnotation Sample.to_number None Sample.enum_node)
             "anyOf")
  ∧ field (getDescriptionAnnotation Sample.to_number None Sample.enum_node) "title"
    = Some (JString "An enum").
Proof.
  assert (is_Some (field (getDescriptionAnnotation Sample.to_number None
                            Sample.enum_node) "anyOf")) as HanyOf.
  { vm_compute. by eexists. }
  split; [exact HanyOf|].
  destruct (title_accompanies_anyOf Sample.to_number None Sample.enum_node)
    as (Hiff & Htitle & _).
  rewrite (Htitle (proj2 Hiff HanyOf)). reflexivity.
Defined.

Lemma description_is_trimmed_without_cr_witness :
  field (getDescriptionAnnotation Sample.to_number None Sample.documented_node)
    "description" = Some (JString "line one line two")
  ∧ Text.contains JSString.CR "line one line two" = false.
Proof.
  split; [reflexivity|].
  apply (description_is_trimmed_without_cr Sample.to_number None
           Sample.documented_node "line one line two").
  reflexivity.
Defined.

Lemma description_of_a_description_witness :
  field (getDescriptionAnnotation Sample.to_number None Sample.documented_node)
    "description" = Some (JString "line one line two")
  ∧ field (getDescriptionAnnotation Sample.to_number None SampleMore.collapsed_node)
      "description" = Some (JString "line one line two").
Proof.
  split; [reflexivity|].
  apply (description_of_a_description Sample.to_number None
           Sample.documented_node SampleMore.collapsed_node
           (mkSymbol Property [Sample.part "line one line two"] [] None)
           "line one line two" "text"); reflexivity.
Defined.

Lemma description_differs_from_markdown_at_line_feeds_witness :
  truthy (Some true) = true
  ∧ ∃ m d,
      field (getDescriptionAnnotation Sample.to_number (Some true)
               Sample.documented_node) "markdownDescription" = Some (JString m)
      ∧ field (getDescriptionAnnotation Sample.to_number (Some true)
                 Sample.documented_node) "description" = Some (JString d)
      ∧ String.length d = String.length m.
Proof.
  split; [reflexivity|].
  destruct (description_differs_from_markdown_at_line_feeds Sample.to_number
              (Some true) Sample.documented_node _ eq_refl eq_refl)
    as (m & d & Hm & Hd & Hlen & _); [done|].
  exists m, d. split; [exact Hm|]. split; [exact Hd|exact Hlen].
Defined.

Lemma examples_between_one_and_tag_count_witness :
  getExampleAnnotation Sample.parse Sample.tagged_node
  = Normal (Some {[ "examples" := JArray [JNumber (number_of_Z 1)] ]})
  ∧ count_tags "example"
      [Sample.tag "example" "not json"; Sample.bare_tag "nullable";
       Sample.tag "example" "1"; Sample.tag "asType" "CustomType"] = 2
  ∧ ∃ symbol values,
      symbolAtNode Sample.tagged_node = Some symbol
      ∧ JArray [JNumber (number_of_Z 1)] = JArray values
      ∧ (1 ≤ length values)%nat
      ∧ (length values ≤ count_tags "example" (getJsDocTags symbol))%nat.
Proof.
  assert (getExampleAnnotation Sample.parse Sample.tagged_node
          = Normal (Some {[ "examples" := JArray [JNumber (number_of_Z 1)] ]}))
    as H.
  { rewrite getExampleAnnotation_spec. reflexivity. }
  split; [exact H|]. split; [reflexivity|].
  apply (examples_between_one_and_tag_count Sample.parse Sample.tagged_node _ _ H).
  reflexivity.
Defined.

Lemma first_asType_tag_wins_witness :
  getJsDocTags SampleMore.twice_typed_symbol
  = ([Sample.bare_tag "nullable"] ++ Sample.tag "asType" "First"
       :: [Sample.tag "asType" "Second"])%list
  ∧ getTypeAnnotation SampleMore.twice_typed_node
    = Some {[ "type" := JString "First" ]}.
Proof.
  split; [reflexivity|].
  apply (first_asType_tag_wins SampleMore.twice_typed_node
           SampleMore.twice_typed_symbol [Sample.bare_tag "nullable"]
           [Sample.tag "asType" "Second"] (Sample.tag "asType" "First"));
    [reflexivity|done|reflexivity|by repeat constructor|reflexivity].
Defined.

Lemma other_tags_are_ignored_witness :
  name (Sample.bare_tag "deprecated") ≠ "example"
  ∧ getTypeAnnotation Sample.tagged_node
    = getTypeAnnotation SampleMore.deprecated_node
  ∧ getExampleAnnotation Sample.parse Sample.tagged_node
    = getExampleAnnotation Sample.parse SampleMore.deprecated_node
  ∧ isNullable Sample.tagged_node = isNullable SampleMore.deprecated_node.
Proof.
  split; [done|].
  apply (other_tags_are_ignored Sample.parse Sample.tagged_node
           SampleMore.deprecated_node
           (mkSymbol Property [Sample.part "A width"]
              [Sample.tag "example" "not json"; Sample.bare_tag "nullable";
               Sample.tag "example" "1"; Sample.tag "asType" "CustomType"] None)
           SampleMore.deprecated_symbol
           [Sample.tag "example" "not json"]
           [Sample.bare_tag "nullable"; Sample.tag "example" "1";
            Sample.tag "asType" "CustomType"]
           (Sample.bare_tag "deprecated"));
    first [reflexivity | done].
Defined.

Lemma getAnnotations_throws_iff_base_throws_witness :
  SampleMore.throwing_base Sample.tagged_node = Throw (JString "base reader failed")
  ∧ getAnnotations Sample.parse Sample.to_number SampleMore.throwing_base None
      Sample.tagged_node = Throw (JString "base reader failed").
Proof.
  split; [reflexivity|].
  apply (proj2 (getAnnotations_throws_iff_base_throws Sample.parse Sample.to_number
                  SampleMore.throwing_base None Sample.tagged_node _)).
  reflexivity.
Defined.

Module ProgramWitnesses.
Import ProgramFactory.

Lemma loadTsConfigFile_returns_iff_witness :
  Fixture.readFile "empty.json" = Some ""
  ∧ Fixture.load "empty.json"
    = Throw (cannot_read Fixture.BuildError "empty.json")
  ∧ ∃ result, Fixture.load "tsconfig.json" = Normal result.
Proof.
  split; [reflexivity|]. split.
  - apply (proj2 (ProgramFacts.loadTsConfigFile_returns_iff Fixture.readFile
                    Fixture.parseConfigFileTextToJson
                    Fixture.parseJsonConfigFileContent Fixture.same Fixture.same
                    Fixture.BuildError "empty.json")).
    by right.
  - apply (proj1 (ProgramFacts.loadTsConfigFile_returns_iff Fixture.readFile
                    Fixture.parseConfigFileTextToJson
                    Fixture.parseJsonConfigFileContent Fixture.same Fixture.same
                    Fixture.BuildError "tsconfig.json")).
    exists "{}", (JObject ∅). repeat split; done.
Defined.

Lemma loadTsConfigFile_never_emits_witness :
  Fixture.load "tsconfig.json" = Normal Fixture.loaded
  ∧ options Fixture.loaded !! "noEmit" = Some (JBool true)
  ∧ options Fixture.loaded !! "outDir" = None
  ∧ options Fixture.loaded !! "strict" = Some (JBool true).
Proof.
  assert (Fixture.load "tsconfig.json" = Normal Fixture.loaded) as H.
  { vm_compute. reflexivity. }
  split; [exact H|].
  destruct (ProgramFacts.loadTsConfigFile_never_emits _ _ _ _ _ _ _ _ H)
    as (raw & json & _ & _ & _ & HnoEmit & Hemit & _).
  split; [exact HnoEmit|]. split; [|reflexivity].
  apply Hemit. unfold emit_options. apply list_elem_of_further, list_elem_of_here.
Defined.

Lemma createProgram_creates_without_emit_witness :
  Fixture.create Fixture.path_config
  = Normal (["src/a.ts"; "src/b.ts"], options Fixture.loaded)
  ∧ options Fixture.loaded !! "noEmit" = Some (JBool true).
Proof.
  assert (Fixture.create Fixture.path_config
          = Normal (["src/a.ts"; "src/b.ts"], options Fixture.loaded)) as H.
  { vm_compute. reflexivity. }
  split; [exact H|]. unfold Fixture.create in H.
  destruct (ProgramFacts.createProgram_creates_without_emit _ _ _ _ _ _ _ _ _ _ _ _ _ H)
    as (tsconfig & rootNames & Hts & Hprogram & _ & _ & HnoEmit & _).
  assert (options Fixture.loaded = options tsconfig) as ->
    by exact (f_equal snd Hprogram).
  exact HnoEmit.
Defined.

Lemma createProgram_without_input_files_witness :
  truthy_string (path Fixture.bare_config) = false
  ∧ truthy_string (tsconfig Fixture.bare_config) = false
  ∧ Fixture.create Fixture.bare_config
    = Throw (no_input_files Fixture.BuildError).
Proof.
  split; [reflexivity|]. split; [reflexivity|].
  apply (proj2 (ProgramFacts.createProgram_without_input_files Fixture.readFile
                  Fixture.parseConfigFileTextToJson
                  Fixture.parseJsonConfigFileContent Fixture.same Fixture.same
                  Fixture.same Fixture.globSync Fixture.BuildError Fixture.Program
                  Fixture.ts_createProgram Fixture.getPreEmitDiagnostics
                  Fixture.bare_config)); reflexivity.
Defined.

Lemma createProgram_type_check_witness :
  truthy (skipTypeCheck Fixture.checked_config) = false
  ∧ Fixture.getPreEmitDiagnostics (["src/index.ts"], options Fixture.loaded) = []
  ∧ Fixture.create Fixture.checked_config
    = Normal (["src/index.ts"], options Fixture.loaded)
  ∧ Fixture.create Fixture.failing_config
    = Throw (type_check_error Fixture.BuildError [JString "TS2322"]).
Proof.
  split; [reflexivity|]. split; [reflexivity|].
  assert (getTsConfig Fixture.readFile Fixture.parseConfigFileTextToJson
            Fixture.parseJsonConfigFileContent Fixture.same Fixture.same
            Fixture.BuildError Fixture.checked_config = Normal Fixture.loaded)
    as Hts by (vm_compute; reflexivity).
  split.
  - apply (proj1 (ProgramFacts.createProgram_type_check Fixture.readFile
                    Fixture.parseConfigFileTextToJson
                    Fixture.parseJsonConfigFileContent Fixture.same Fixture.same
                    Fixture.same Fixture.globSync Fixture.BuildError
                    Fixture.Program Fixture.ts_createProgram
                    Fixture.getPreEmitDiagnostics Fixture.checked_config
                    Fixture.loaded ["src/index.ts"] Hts eq_refl
                    ltac:(done) eq_refl)).
    reflexivity.
  - apply (proj2 (ProgramFacts.createProgram_type_check Fixture.readFile
                    Fixture.parseConfigFileTextToJson
                    Fixture.parseJsonConfigFileContent Fixture.same Fixture.same
                    Fixture.same Fixture.globSync Fixture.BuildError
                    Fixture.Program Fixture.ts_createProgram
                    Fixture.getPreEmitDiagnostics Fixture.failing_config
                    Fixture.loaded ["src/a.ts"; "src/b.ts"] Hts eq_refl
                    ltac:(done) eq_refl)).
    done.
Defined.

Lemma createProgram_skips_type_check_witness :
  truthy (skipTypeCheck Fixture.path_config) = true
  ∧ Fixture.create Fixture.path_config
    = createProgram Fixture.readFile Fixture.parseConfigFileTextToJson
        Fixture.parseJsonConfigFileContent Fixture.same Fixture.same Fixture.same
        Fixture.globSync Fixture.BuildError Fixture.Program
        Fixture.ts_createProgram (λ _, []) Fixture.path_config.
Proof.
  split; [reflexivity|].
  apply (ProgramFacts.createProgram_skips_type_check Fixture.readFile
           Fixture.parseConfigFileTextToJson Fixture.parseJsonConfigFileContent
           Fixture.same Fixture.same Fixture.same Fixture.globSync
           Fixture.BuildError Fixture.Program Fixture.ts_createProgram).
  reflexivity.
Defined.

Lemma createProgram_path_takes_precedence_witness :
  rootNamesFromPath Fixture.same Fixture.same Fixture.globSync Fixture.path_config
  = ["src/a.ts"; "src/b.ts"]
  ∧ Fixture.create Fixture.path_config
    = createProgram Fixture.readFile Fixture.parseConfigFileTextToJson
        (λ json basePath file,
           {| options :=
                options (Fixture.parseJsonConfigFileContent json basePath file);
              fileNames := [] |})
        Fixture.same Fixture.same Fixture.same Fixture.globSync
        Fixture.BuildError Fixture.Program Fixture.ts_createProgram
        Fixture.getPreEmitDiagnostics Fixture.path_config.
Proof.
  split; [reflexivity|].
  apply (ProgramFacts.createProgram_path_takes_precedence Fixture.readFile
           Fixture.parseConfigFileTextToJson Fixture.same Fixture.same
           Fixture.same Fixture.globSync Fixture.BuildError Fixture.Program
           Fixture.ts_createProgram); [reflexivity|done].
Defined.

Lemma createProgram_failure_causes_witness :
  Fixture.create Fixture.missing_config
  = Throw (cannot_read Fixture.BuildError "missing.json")
  ∧ getTsConfig Fixture.readFile Fixture.parseConfigFileTextToJson
      Fixture.parseJsonConfigFileContent Fixture.same Fixture.same
      Fixture.BuildError Fixture.missing_config
    = Throw (cannot_read Fixture.BuildError "missing.json").
Proof.
  assert (Fixture.create Fixture.missing_config
          = Throw (cannot_read Fixture.BuildError "missing.json")) as H
    by (vm_compute; reflexivity).
  split; [exact H|]. unfold Fixture.create in H.
  destruct (ProgramFacts.createProgram_failure_causes _ _ _ _ _ _ _ _ _ _ _ _ _ H)
    as [Hts | (tsconfig & Hts & _)]; [exact Hts|].
  vm_compute in Hts. discriminate Hts.
Defined.

End ProgramWitnesses.
